(** * NYC street-line extractor: the grid rasterizer and its pipeline

    A shallow embedding of [nyc_street_extractor.py].  Python integers are
    [Z], Python floats are the kernel's binary64 [float], raised exceptions
    are the left summand of a sum, and the calls made on an xlsxwriter
    worksheet are logged in the order they are made. *)

From Stdlib Require Import ZArith List Bool Lia String Ascii DecimalString.
From Stdlib Require Import QArith Qround.
From Stdlib Require Import PrimFloat SpecFloat FloatOps.
Import ListNotations.

Set Warnings "-inexact-float".
Open Scope Z_scope.

(** ** Grid cells *)

(** A cell of the sheet.  [worksheet.write(y, x, '', format)] addresses the
    cell in row [y] and column [x]. *)
Record GridCell : Type := mkCell { column : Z; row : Z }.

(** ** [draw_line] *)

Module Raster.

(** The loop-invariant locals of [draw_line]: they are computed once, before
    the loop, and never assigned again. *)
Record Line : Type := mkLine
  { dx : Z; dy : Z; sx : Z; sy : Z; end_x : Z; end_y : Z }.

(** Lines 69-72 of the source. *)
Definition line_of (start_x start_y end_x end_y : Z) : Line :=
  {| dx := Z.abs (end_x - start_x);
     dy := Z.abs (end_y - start_y);
     sx := if start_x <? end_x then 1 else -1;
     sy := if start_y <? end_y then 1 else -1;
     end_x := end_x;
     end_y := end_y |}.

(** The loop variables [x], [y] and [err]. *)
Record Pen : Type := mkPen { pen_x : Z; pen_y : Z; pen_err : Z }.

(** Lines 79-85: one pass over the part of the loop body below the [break].
    [e2] is read once, before either update. *)
Definition advance (l : Line) (p : Pen) : Pen :=
  let e2 := 2 * pen_err p in
  let p1 :=
    if e2 >? - dy l
    then {| pen_x := pen_x p + sx l; pen_y := pen_y p; pen_err := pen_err p - dy l |}
    else p in
  if e2 <? dx l
  then {| pen_x := pen_x p1; pen_y := pen_y p1 + sy l; pen_err := pen_err p1 + dx l |}
  else p1.

(** The [while True] loop.  One unit of fuel pays for one iteration; [None]
    is a loop still running when the fuel is gone.  The result lists the
    cells written, in the order of the [worksheet.write] calls. *)
Fixpoint draw_loop (fuel : nat) (l : Line) (p : Pen) : option (list GridCell) :=
  match fuel with
  | O => None
  | S fuel' =>
      let here := mkCell (pen_x p) (pen_y p) in
      if (pen_x p =? end_x l) && (pen_y p =? end_y l)
      then Some [here]
      else option_map (cons here) (draw_loop fuel' l (advance l p))
  end.

Definition draw_line (fuel : nat) (start_x start_y end_x end_y : Z)
  : option (list GridCell) :=
  let l := line_of start_x start_y end_x end_y in
  draw_loop fuel l {| pen_x := start_x; pen_y := start_y; pen_err := dx l - dy l |}.

(** [draw_line] returns [cells]: some amount of fuel is enough, and any
    larger amount gives the same cells. *)
Definition emits (start finish : GridCell) (cells : list GridCell) : Prop :=
  exists n : nat, forall k : nat,
    draw_line (n + k) (column start) (row start) (column finish) (row finish)
    = Some cells.

(** Two cells are neighbours on the 8-connected grid, or equal. *)
Definition adjacent8 (a b : GridCell) : Prop :=
  Z.abs (column b - column a) <= 1 /\ Z.abs (row b - row a) <= 1.

Fixpoint connected8 (cells : list GridCell) : Prop :=
  match cells with
  | a :: (b :: _) as rest => adjacent8 a b /\ connected8 rest
  | _ => True
  end.

(** The number of iterations of [draw_line]: one more than the larger of the
    two distances. *)
Definition iterations (x0 y0 x1 y1 : Z) : nat :=
  S (Z.to_nat (Z.max (Z.abs (x1 - x0)) (Z.abs (y1 - y0)))).

(** The columns and the rows still to cross. *)
Definition togo_x (l : Line) (p : Pen) : Z := sx l * (end_x l - pen_x p).
Definition togo_y (l : Line) (p : Pen) : Z := sy l * (end_y l - pen_y p).

(** The loop invariant: [err] is a function of the distances still to
    cross. *)
Definition err_tracks (l : Line) (p : Pen) : Prop :=
  pen_err p = dx l - dy l + togo_x l p * dy l - togo_y l p * dx l.

(** *** The line walk as the specification words it *)

Module Spec.

(** "sign": 1 if the first is below the second, else -1. *)
Definition sign (from to : Z) : Z := if from <? to then 1 else -1.

(** The update rule, on the triple (x, y, err).  Both tests read the [err]
    the step began with. *)
Definition update (dx dy sx sy : Z) (x y err : Z) : Z * Z * Z :=
  let '(x', err') := if 2 * err >? - dy then (x + sx, err - dy) else (x, err) in
  if 2 * err <? dx then (x', y + sy, err' + dx) else (x', y, err').

(** "At each step emit the current cell; terminate after emitting the end
    cell." *)
Inductive walk (dx dy sx sy x1 y1 : Z) : Z -> Z -> Z -> list GridCell -> Prop :=
| walk_stop : forall err, walk dx dy sx sy x1 y1 x1 y1 err [mkCell x1 y1]
| walk_step : forall x y err x' y' err' cells,
    mkCell x y <> mkCell x1 y1 ->
    update dx dy sx sy x y err = (x', y', err') ->
    walk dx dy sx sy x1 y1 x' y' err' cells ->
    walk dx dy sx sy x1 y1 x y err (mkCell x y :: cells).

Definition segments (start finish : GridCell) (cells : list GridCell) : Prop :=
  let x0 := column start in let y0 := row start in
  let x1 := column finish in let y1 := row finish in
  let dx := Z.abs (x1 - x0) in
  let dy := Z.abs (y1 - y0) in
  walk dx dy (sign x0 x1) (sign y0 y1) x1 y1 x0 y0 (dx - dy) cells.

End Spec.

End Raster.

(** ** Python values *)

Module Py.

(** The exception classes the program raises or lets through.  All of them
    derive from [Exception], so [except Exception] catches every one.
    What does not derive from [Exception] ([KeyboardInterrupt],
    [SystemExit]) is outside this model: no collaborator here raises it. *)
Inductive exn_class : Type :=
| Exception
| ValueError
| OverflowError
| EOFError
| FileNotFoundError
| PermissionError
| LibraryError.   (* raised inside geopy, geopandas, shapely, folium, ... *)

(** A raised exception; [str(e)] is its message. *)
Record exn : Type := mkExn { exn_kind : exn_class; exn_msg : string }.

(** The outcome of a call: an exception raised, or a value returned. *)
Definition result (A : Type) : Type := (exn + A)%type.

Definition raise {A : Type} (k : exn_class) (msg : string) : result A :=
  inl (mkExn k msg).

Definition bind {A B : Type} (r : result A) (k : A -> result B) : result B :=
  match r with
  | inl e => inl e
  | inr a => k a
  end.

(** The value of a finite binary64 number, as a fraction. *)
Definition Q_of_SF (f : spec_float) : Q :=
  match f with
  | S754_finite s m e =>
      let n := if s then Z.neg m else Z.pos m in
      if 0 <=? e then inject_Z (n * 2 ^ e) else Qmake n (Pos.pow 2 (Z.to_pos (- e)))
  | _ => 0%Q
  end.

Definition Q_of_float (f : float) : Q := Q_of_SF (Prim2SF f).

(** Neither an infinity nor NaN. *)
Definition finite (f : float) : bool :=
  match Prim2SF f with
  | S754_zero _ | S754_finite _ _ _ => true
  | S754_infinity _ | S754_nan => false
  end.

(** [int(f)] on a float: the digits of the magnitude above the binary point
    are kept and the sign is put back; infinities and NaN raise. *)
Definition int (f : float) : result Z :=
  match Prim2SF f with
  | S754_zero _ => inr 0
  | S754_finite s m e =>
      let magnitude := Z.shiftl (Z.pos m) e in
      inr (if s then - magnitude else magnitude)
  | S754_infinity _ => raise OverflowError "cannot convert float infinity to integer"
  | S754_nan => raise ValueError "cannot convert float NaN to integer"
  end.

End Py.

Notation "x <- r ;; k" := (Py.bind r (fun x => k))
  (at level 61, r at next level, right associativity).

(** ** [convert_coords_to_excel_coords] *)

Module Projector.

(** The body of the [for lon, lat in coords] loop, up to the [append]. *)
Definition excel_coord (lon lat center_lon center_lat scale : float)
  : Py.result (Z * Z) :=
  let x := ((lon - center_lon) * scale)%float in
  let y := ((lat - center_lat) * scale)%float in
  excel_x <- Py.int (x + 50)%float ;;
  excel_y <- Py.int (50 - y)%float ;;
  inr (excel_x, excel_y).

(** The loop, with the list [excel_coords] it appends to. *)
Fixpoint convert_loop (coords : list (float * float))
    (center_lon center_lat scale : float) (excel_coords : list (Z * Z))
  : Py.result (list (Z * Z)) :=
  match coords with
  | [] => inr excel_coords
  | (lon, lat) :: rest =>
      c <- excel_coord lon lat center_lon center_lat scale ;;
      convert_loop rest center_lon center_lat scale (excel_coords ++ [c])
  end.

Definition convert_coords_to_excel_coords (coords : list (float * float))
    (center_lon center_lat scale : float) : Py.result (list (Z * Z)) :=
  convert_loop coords center_lon center_lat scale [].

(** The default of the [scale] parameter. *)
Definition default_scale : float := 100%float.

(** *** The projection as the specification words it *)

Module Spec.

(** "floor truncates toward negative infinity". *)
Definition floor (f : float) : Z := Qfloor (Py.Q_of_float f).

Definition project (lon lat center_lon center_lat scale : float) : GridCell :=
  let x := ((lon - center_lon) * scale)%float in
  let y := ((lat - center_lat) * scale)%float in
  mkCell (floor (x + 50)%float) (floor (50 - y)%float).

End Spec.

(** The intermediate values [x + 50] and [50 - y] of one coordinate. *)
Definition column_value (lon center_lon scale : float) : float :=
  ((lon - center_lon) * scale + 50)%float.
Definition row_value (lat center_lat scale : float) : float :=
  (50 - (lat - center_lat) * scale)%float.

(** Rounding toward zero: down for a non-negative value, up for a negative
    one. *)
Definition toward_zero (q : Q) : Z :=
  if Qle_bool 0 q then Qfloor q else Qceiling q.

End Projector.

(** ** Geometry and feature rows *)

Module Geo.

(** A shapely [Point]: [x] is the longitude, [y] the latitude. *)
Record Point : Type := mkPoint { point_x : float; point_y : float }.

(** The geometry of a row of the data frame, by its shapely class;
    [Missing] is a row whose geometry is [None]. *)
Inductive Geometry : Type :=
| PointGeometry (coord : float * float)
| LineString (coords : list (float * float))
| Polygon (shell : list (float * float))
| MultiPoint (points : list (float * float))
| MultiLineString (lines : list (list (float * float)))
| MultiPolygon (shells : list (list (float * float)))
| Missing.

(** [isinstance(g, LineString)]. *)
Definition isinstance_LineString (g : Geometry) : bool :=
  match g with
  | LineString _ => true
  | _ => false
  end.

(** One row of [streets_data]. *)
Record Row : Type := mkRow { geometry : Geometry; STNAME : option string }.

(** A [GeoDataFrame]: its reference system (an EPSG code, when declared) and
    its rows in iteration order. *)
Record GeoDataFrame : Type := mkFrame { crs : option Z; rows : list Row }.

(** [center.buffer(distance)]. *)
Record Buffer : Type := mkBuffer { buffer_center : Point; buffer_distance : float }.

End Geo.

(** ** [export_streets_to_excel] *)

Module Excel.

Import Geo.

Inductive cell_format : Type := title_format | street_format.

(** The calls made on the worksheet, and the [workbook.close()] that ends
    them. *)
Inductive ws_call : Type :=
| set_column (first_col last_col width : Z)
| set_row (r height : Z)
| merge_range (range data : string) (f : cell_format)
| write (r c : Z) (data : string) (f : cell_format)
| close_workbook (output_path : string).

(** The worksheet, as the log of the calls made so far. *)
Definition worksheet : Type := list ws_call.

(** A computation that calls the worksheet: from the log before to the log
    after, with the value returned or the exception raised.  [None] is a
    line walk that ran out of fuel. *)
Definition Sheet (A : Type) : Type :=
  worksheet -> option (worksheet * Py.result A).

Definition ret {A : Type} (a : A) : Sheet A := fun ws => Some (ws, inr a).

Definition bind {A B : Type} (m : Sheet A) (k : A -> Sheet B) : Sheet B :=
  fun ws =>
    match m ws with
    | None => None
    | Some (ws', inl e) => Some (ws', inl e)
    | Some (ws', inr a) => k a ws'
    end.

Definition call (c : ws_call) : Sheet unit := fun ws => Some (ws ++ [c], inr tt).

Definition lift {A : Type} (r : Py.result A) : Sheet A := fun ws => Some (ws, r).

(** [try: m except Exception as e: h e]. *)
Definition try_except {A : Type} (m : Sheet A) (h : Py.exn -> Sheet A) : Sheet A :=
  fun ws =>
    match m ws with
    | Some (ws', inl e) => h e ws'
    | other => other
    end.

Fixpoint for_each {A : Type} (items : list A) (body : A -> Sheet unit) : Sheet unit :=
  match items with
  | [] => ret tt
  | a :: rest => bind (body a) (fun _ => for_each rest body)
  end.

(** [draw_line(worksheet, start_x, start_y, end_x, end_y, format)]: every
    cell of the walk is one [worksheet.write(y, x, '', format)]. *)
Definition draw_line (fuel : nat) (start_x start_y end_x end_y : Z)
    (f : cell_format) : Sheet unit :=
  fun ws =>
    match Raster.draw_line fuel start_x start_y end_x end_y with
    | Some cells =>
        Some (ws ++ map (fun c => write (row c) (column c) "" f) cells, inr tt)
    | None => None
    end.

(** [for i in range(len(excel_coords) - 1)]: one line from [excel_coords[i]]
    to [excel_coords[i + 1]] for each consecutive pair. *)
Fixpoint draw_segments (fuel : nat) (excel_coords : list (Z * Z))
    (f : cell_format) : Sheet unit :=
  match excel_coords with
  | (start_x, start_y) :: (((end_x, end_y) :: _) as rest) =>
      bind (draw_line fuel start_x start_y end_x end_y f)
           (fun _ => draw_segments fuel rest f)
  | _ => ret tt
  end.

(** The body of [for idx, row in streets_data.iterrows()]. *)
Definition render_row (fuel : nat) (center_lon center_lat : float) (r : Row)
  : Sheet unit :=
  match geometry r with
  | LineString coords =>
      bind (lift (Projector.convert_coords_to_excel_coords
                    coords center_lon center_lat Projector.default_scale))
           (fun excel_coords => draw_segments fuel excel_coords street_format)
  | _ => ret tt
  end.

(** [workbook_close] is the outcome of xlsxwriter's [workbook.close()],
    which writes the file at [output_path] and may fail doing so; the call
    itself is logged. *)
Definition export_streets_to_excel (fuel : nat)
    (workbook_close : string -> Py.result unit)
    (streets_data : list Row) (center_point : Point) (output_path : string)
  : option (worksheet * Py.result bool) :=
  try_except
    (bind (call (set_column 0 100 2)) (fun _ =>
     bind (for_each (map Z.of_nat (seq 0 100)) (fun i => call (set_row i 15))) (fun _ =>
     bind (call (merge_range "A1:Z1" "NYC Street Map" title_format)) (fun _ =>
     let center_lon := point_x center_point in
     let center_lat := point_y center_point in
     bind (for_each streets_data (render_row fuel center_lon center_lat)) (fun _ =>
     bind (call (close_workbook output_path)) (fun _ =>
     bind (lift (workbook_close output_path)) (fun _ =>
     ret true)))))))
    (fun e => lift (Py.raise Py.Exception
                      ("Error exporting to Excel: " ++ Py.exn_msg e)))
    [].

(** The cells a worksheet log fills, in order. *)
Definition written_cells (ws : worksheet) : list GridCell :=
  flat_map (fun c => match c with
                     | write r c _ _ => [mkCell c r]
                     | _ => []
                     end) ws.

End Excel.

(** ** The pipeline: input, geocoding, dataset check, filter, rendering *)

Module Pipeline.

Import Geo.

(** What the run does to the outside, in order. *)
Inductive event : Type :=
| Print (text : string)          (* print(text) *)
| Prompt (text : string)         (* the prompt of input(text) *)
| Geocode (address : string)     (* geolocator.geocode(address) *)
| ReadFile (path : string)       (* gpd.read_file(path) *)
| SaveMap (path : string)        (* the folium map is built and saved *)
| SaveSvg (path : string).       (* the figure is plotted and saved *)

(** A geopy location. *)
Record Location : Type := mkLocation { longitude : float; latitude : float }.

(** The collaborators outside the program: the parser behind [float(...)],
    the geocoding service, the file system, the dataset reader, shapely's
    intersection test, the clock and the two renderers. *)
Record Env : Type := mkEnv
  { parse_float : string -> option float;  (* [None]: float() raises ValueError *)
    geocode : string -> Py.result (option Location);
    current_dir : string;                  (* dirname(abspath(__file__)) *)
    getcwd : string;
    splitext_root : string -> string;      (* os.path.splitext(p)[0] *)
    path_exists : string -> bool;          (* os.path.exists *)
    access_R_OK : string -> bool;          (* os.access(p, os.R_OK) *)
    read_file : string -> Py.result GeoDataFrame;
    intersects : Geometry -> Buffer -> bool;
    now : string;                          (* strftime("%Y%m%d_%H%M%S") *)
    folium_render : list Row -> Point -> float -> string -> Py.result unit;
    pyplot_render : list Row -> string -> Py.result unit }.

(** The lines still to be read from standard input, and the events so far. *)
Record World : Type := mkWorld { stdin : list string; log : list event }.

Definition IO (A : Type) : Type := World -> World * Py.result A.

Definition ret {A : Type} (a : A) : IO A := fun w => (w, inr a).

Definition bind {A B : Type} (m : IO A) (k : A -> IO B) : IO B :=
  fun w =>
    match m w with
    | (w', inl e) => (w', inl e)
    | (w', inr a) => k a w'
    end.

Definition emit (e : event) : IO unit :=
  fun w => (mkWorld (stdin w) (log w ++ [e]), inr tt).

Definition print (text : string) : IO unit := emit (Print text).

Definition lift {A : Type} (r : Py.result A) : IO A := fun w => (w, r).

Definition raise {A : Type} (k : Py.exn_class) (msg : string) : IO A :=
  lift (Py.raise k msg).

(** [try: m except Exception as e: h e]. *)
Definition try_except {A : Type} (m : IO A) (h : Py.exn -> IO A) : IO A :=
  fun w =>
    match m w with
    | (w', inl e) => h e w'
    | done => done
    end.

Fixpoint for_each {A : Type} (items : list A) (body : A -> IO unit) : IO unit :=
  match items with
  | [] => ret tt
  | a :: rest => bind (body a) (fun _ => for_each rest body)
  end.

Notation "x <~ m ;; k" := (bind m (fun x => k))
  (at level 61, m at next level, right associativity).
Notation "m ;;; k" := (bind m (fun _ => k))
  (at level 61, right associativity).

Definition nl : string := String (Ascii.ascii_of_nat 10) EmptyString.

(** [input(prompt)]: the prompt is shown, then a line is read; at the end of
    the input [EOFError] is raised. *)
Definition input (prompt : string) : IO string :=
  fun w =>
    let shown := log w ++ [Prompt prompt] in
    match stdin w with
    | [] => (mkWorld [] shown, Py.raise Py.EOFError "EOF when reading a line")
    | line :: rest => (mkWorld rest shown, inr line)
    end.

(** The [while True] loop of [get_user_input].  Every iteration reads one
    line, so the loop is driven by the lines left on standard input. *)
Fixpoint radius_loop (env : Env) (lines : list string) (seen : list event)
  : World * Py.result float :=
  let shown := seen ++ [Prompt (nl ++ "Please enter search radius (meters): ")] in
  match lines with
  | [] => (mkWorld [] shown, Py.raise Py.EOFError "EOF when reading a line")
  | line :: rest =>
      match parse_float env line with
      | None => radius_loop env rest (shown ++ [Print "Please enter a valid number."])
      | Some radius =>
          if (radius <=? 0)%float
          then radius_loop env rest (shown ++ [Print "Radius must be greater than 0."])
          else (mkWorld rest shown, inr radius)
      end
  end.

Definition get_user_input (env : Env) : IO (string * float) :=
  print (nl ++ "=== NYC Street Centerline Extractor ===") ;;;
  address <~ input (nl ++ "Please enter a NYC address (e.g., '350 5th Ave, New York, NY'): ") ;;
  radius <~ (fun w => radius_loop env (stdin w) (log w)) ;;
  ret (address, radius).

Definition geocode_address (env : Env) (address : string) : IO Point :=
  try_except
    (emit (Geocode address) ;;;
     location <~ lift (geocode env address) ;;
     match location with
     | Some l => ret (mkPoint (longitude l) (latitude l))
     | None => raise Py.ValueError "Address not found."
     end)
    (fun e => raise Py.Exception ("Geocoding error: " ++ Py.exn_msg e)).

(** [radius] is in meters; [111000] is the meters taken for one degree. *)
Definition extract_streets (env : Env) (center_point : Point) (radius : float)
    (shapefile_path : string) : IO GeoDataFrame :=
  try_except
    (print ("Reading Shapefile: " ++ shapefile_path) ;;;
     emit (ReadFile shapefile_path) ;;;
     streets <~ lift (read_file env shapefile_path) ;;
     let streets :=
       match crs streets with
       | None => mkFrame (Some 4326) (rows streets)
       | Some _ => streets
       end in
     let buffer := mkBuffer center_point (radius / 111000)%float in
     let streets_in_radius :=
       mkFrame (crs streets)
               (filter (fun r => intersects env (geometry r) buffer) (rows streets)) in
     ret streets_in_radius)
    (fun e => raise Py.Exception ("Error extracting street data: " ++ Py.exn_msg e)).

(** [os.path.join(path, b)] on a POSIX system: a [b] that starts with the
    separator replaces [path]; otherwise [b] is appended, behind a separator
    unless [path] is empty or already ends with one. *)
Definition starts_with_sep (s : string) : bool :=
  match s with
  | String c _ => Ascii.eqb c "/"
  | EmptyString => false
  end.

Fixpoint ends_with_sep (s : string) : bool :=
  match s with
  | EmptyString => false
  | String c EmptyString => Ascii.eqb c "/"
  | String _ rest => ends_with_sep rest
  end.

Definition path_join (path b : string) : string :=
  if starts_with_sep b then b
  else if (String.eqb path "" || ends_with_sep path)%bool then (path ++ b)%string
  else (path ++ "/" ++ b)%string.

(** The path [get_shapefile_path] builds:
    [os.path.join(current_dir, "Centerline_20250522", "geo_export_....shp")]. *)
Definition shapefile_path_of (env : Env) : string :=
  path_join (path_join (current_dir env) "Centerline_20250522")
            "geo_export_afeb978c-bd19-430e-9999-6417824a9aae.shp".

Definition get_shapefile_path (env : Env) : IO string :=
  let shapefile_path := shapefile_path_of env in
  print (nl ++ "Current working directory: " ++ getcwd env) ;;;
  print ("Shapefile path: " ++ shapefile_path) ;;;
  ret shapefile_path.

Definition required_extensions : list string := [".shp"; ".shx"; ".dbf"; ".prj"]%string.

(** The body of [for ext in required_extensions]. *)
Definition check_file (env : Env) (base_path ext : string) : IO unit :=
  let file_path := (base_path ++ ext)%string in
  print ("- " ++ file_path) ;;;
  (if negb (path_exists env file_path)
   then raise Py.FileNotFoundError ("Required file not found: " ++ file_path)
   else ret tt) ;;;
  (if negb (access_R_OK env file_path)
   then raise Py.PermissionError ("Cannot read file: " ++ file_path)
   else ret tt).

Definition check_shapefile_files (env : Env) (shapefile_path : string) : IO bool :=
  let base_path := splitext_root env shapefile_path in
  print (nl ++ "Checking the following files:") ;;;
  for_each required_extensions (check_file env base_path) ;;;
  ret true.

(** Only the rows that are a [LineString] are drawn on the map. *)
Definition visualize_streets (env : Env) (streets_data : GeoDataFrame)
    (center_point : Point) (radius : float) (output_path : string) : IO bool :=
  try_except
    (emit (SaveMap output_path) ;;;
     lift (folium_render env
             (filter (fun r => isinstance_LineString (geometry r)) (rows streets_data))
             center_point radius output_path) ;;;
     ret true)
    (fun e => raise Py.Exception ("Error generating map: " ++ Py.exn_msg e)).

Definition export_streets_to_svg (env : Env) (streets_data : GeoDataFrame)
    (output_path : string) : IO bool :=
  try_except
    (emit (SaveSvg output_path) ;;;
     lift (pyplot_render env
             (filter (fun r => isinstance_LineString (geometry r)) (rows streets_data))
             output_path) ;;;
     ret true)
    (fun e => raise Py.Exception ("Error exporting SVG: " ++ Py.exn_msg e)).

Definition str_of_nat (n : nat) : string :=
  DecimalString.NilEmpty.string_of_uint (Nat.to_uint n).

Definition main (env : Env) : IO unit :=
  try_except
    (input_ <~ get_user_input env ;;
     let '(address, radius) := input_ in
     print (nl ++ "Geocoding address...") ;;;
     center_point <~ geocode_address env address ;;
     shapefile_path <~ get_shapefile_path env ;;
     print (nl ++ "Checking Shapefile files...") ;;;
     check_shapefile_files env shapefile_path ;;;
     print (nl ++ "Extracting street data...") ;;;
     streets_data <~ extract_streets env center_point radius shapefile_path ;;
     if (List.length (rows streets_data) =? 0)%nat
     then print (nl ++ "No streets found within the specified radius.")
     else
       let map_file := ("street_map_" ++ now env ++ ".html")%string in
       let svg_file := ("street_lines_" ++ now env ++ ".svg")%string in
       print (nl ++ "Generating interactive map...") ;;;
       visualize_streets env streets_data center_point radius map_file ;;;
       print (nl ++ "Exporting SVG street lines...") ;;;
       export_streets_to_svg env streets_data svg_file ;;;
       print (nl ++ "Success!") ;;;
       print ("Map saved to: " ++ map_file) ;;;
       print ("SVG street lines saved to: " ++ svg_file) ;;;
       print ("Total " ++ str_of_nat (List.length (rows streets_data)) ++ " streets found.") ;;;
       print (nl ++ "Insert the SVG file into Excel and ungroup to get editable street line vectors."))
    (fun e => print (nl ++ "Error: " ++ Py.exn_msg e)).

(** The errors that mean the dataset's files are missing or unreadable. *)
Definition is_data_error (e : Py.exn) : bool :=
  match Py.exn_kind e with
  | Py.FileNotFoundError | Py.PermissionError => true
  | _ => false
  end.

Definition is_ReadFile (e : event) : bool :=
  match e with
  | ReadFile _ => true
  | _ => false
  end.

(** The [ReadFile] events of a world: the reads of the dataset so far. *)
Definition reads (w : World) : list event := filter is_ReadFile (log w).

(** A companion of the dataset exists and can be read. *)
Definition file_ok (env : Env) (base_path ext : string) : bool :=
  path_exists env (base_path ++ ext) && access_R_OK env (base_path ++ ext).

(** Every required companion of the dataset exists and can be read. *)
Definition companions_ok (env : Env) (shapefile_path : string) : bool :=
  forallb (file_ok env (splitext_root env shapefile_path)) required_extensions.

End Pipeline.

(** ** A small world to run the pipeline in *)

Module Fixtures.

Import Geo Pipeline.
Local Open Scope string_scope.

(** [os.path.splitext(p)[0]] for a path that ends in a dot and three
    letters. *)
Definition drop_extension (p : string) : string :=
  substring 0 (String.length p - 4)%nat p.

Definition vertices (g : Geometry) : list (float * float) :=
  match g with
  | PointGeometry c => [c]
  | LineString cs | Polygon cs | MultiPoint cs => cs
  | MultiLineString parts | MultiPolygon parts => List.concat parts
  | Missing => []
  end.

(** A planar stand-in for shapely's test, exact enough for the examples: a
    buffer of non-positive distance is empty and meets nothing; any other
    buffer meets a geometry that has a vertex within the distance. *)
Definition meets (g : Geometry) (b : Buffer) : bool :=
  (0 <? buffer_distance b)%float &&
  existsb (fun c =>
             let dlon := (fst c - point_x (buffer_center b))%float in
             let dlat := (snd c - point_y (buffer_center b))%float in
             (dlon * dlon + dlat * dlat <=? buffer_distance b * buffer_distance b)%float)
          (vertices g).

Definition fifth_avenue : Row :=
  mkRow (LineString [((-73.9857)%float, 40.7484%float);
                     ((-73.9850)%float, 40.7490%float)]) (Some "5 AVENUE").

Definition broadway : Row :=
  mkRow (MultiLineString [[((-73.9880)%float, 40.7480%float);
                           ((-73.9875)%float, 40.7495%float)]]) (Some "BROADWAY").

Definition empire_state : Point := mkPoint (-73.9857)%float 40.7484%float.

(** A world whose dataset holds two streets near the geocoded address;
    [present] tells which files exist. *)
Definition world (present : string -> bool) : Env :=
  {| parse_float := fun s =>
       if String.eqb s "250" then Some 250%float
       else if String.eqb s "0" then Some 0%float
       else if String.eqb s "-5" then Some (-5)%float
       else None;
     geocode := fun _ => inr (Some (mkLocation (-73.9857)%float 40.7484%float));
     current_dir := "/srv/app";
     getcwd := "/srv/app";
     splitext_root := drop_extension;
     path_exists := present;
     access_R_OK := fun _ => true;
     read_file := fun _ => inr (mkFrame None [fifth_avenue; broadway]);
     intersects := meets;
     now := "20250522_101500";
     folium_render := fun _ _ _ _ => inr tt;
     pyplot_render := fun _ _ => inr tt |}.

Definition complete : Env := world (fun _ => true).

Definition prj_path : string :=
  "/srv/app/Centerline_20250522/geo_export_afeb978c-bd19-430e-9999-6417824a9aae.prj".

(** The same world with the [.prj] companion gone. *)
Definition without_prj : Env := world (fun p => negb (String.eqb p prj_path)).

End Fixtures.

(** ** The shape of a walk *)

Module RasterShape.

Import Raster.

(** The rectangle spanned by two cells. *)
Definition in_box (start finish c : GridCell) : Prop :=
  Z.min (column start) (column finish) <= column c
    <= Z.max (column start) (column finish) /\
  Z.min (row start) (row finish) <= row c <= Z.max (row start) (row finish).

(** The cross product of [c - start] with [finish - start]: zero for a cell
    on the straight line through the two, and [dx] (or [dy]) times the
    distance from that line along a column (a row) otherwise. *)
Definition cross (start finish c : GridCell) : Z :=
  (column c - column start) * (row finish - row start)
  - (row c - row start) * (column finish - column start).

(** The number of king's moves between two cells. *)
Definition chebyshev (a b : GridCell) : Z :=
  Z.max (Z.abs (column b - column a)) (Z.abs (row b - row a)).

(** The larger of the two distances of a segment. *)
Definition span (start finish : GridCell) : Z :=
  Z.max (Z.abs (column finish - column start)) (Z.abs (row finish - row start)).

(** The distance still to cross along the longer side of the line. *)
Definition major (l : Line) (p : Pen) : Z :=
  if dy l <=? dx l then togo_x l p else togo_y l p.

(** The invariant of the loop on a line that is not a single cell: [err]
    follows the distances to go, these stay within the line's extent, and
    [err] stays in the band that makes the loop step along the longer side
    at every iteration. *)
Definition steady (l : Line) (p : Pen) : Prop :=
  err_tracks l p /\
  0 <= togo_x l p <= dx l /\
  0 <= togo_y l p <= dy l /\
  ((dy l <= dx l /\ 0 < dx l /\
    - dy l < 2 * pen_err p /\
    dx l - 2 * dy l <= 2 * pen_err p < 3 * dx l - 2 * dy l) \/
   (dx l < dy l /\
    2 * dx l - 3 * dy l < 2 * pen_err p <= 2 * dx l - dy l)).

End RasterShape.

(** ** The rendering plan of a data frame *)

Module Plan.

Import Geo Excel.

(** The cells of the walk from [a] to [b], run for the number of iterations
    the walk takes. *)
Definition segment_cells (a b : Z * Z) : list GridCell :=
  match Raster.draw_line (Raster.iterations (fst a) (snd a) (fst b) (snd b))
                         (fst a) (snd a) (fst b) (snd b) with
  | Some cells => cells
  | None => []
  end.

(** The cells of a projected polyline: the walks of its consecutive vertex
    pairs, one after the other. *)
Fixpoint polyline_cells (excel_coords : list (Z * Z)) : list GridCell :=
  match excel_coords with
  | a :: ((b :: _) as rest) => segment_cells a b ++ polyline_cells rest
  | _ => []
  end.

(** The cells of one row of the frame. *)
Definition row_cells (center_lon center_lat : float) (r : Row) : list GridCell :=
  match geometry r with
  | LineString coords =>
      match Projector.convert_coords_to_excel_coords
              coords center_lon center_lat Projector.default_scale with
      | inr excel_coords => polyline_cells excel_coords
      | inl _ => []
      end
  | _ => []
  end.

(** The row is not a [LineString], or it is one whose every vertex
    projects. *)
Definition projects (center_lon center_lat : float) (r : Row) : bool :=
  match geometry r with
  | LineString coords =>
      match Projector.convert_coords_to_excel_coords
              coords center_lon center_lat Projector.default_scale with
      | inr _ => true
      | inl _ => false
      end
  | _ => true
  end.

(** The calls that lay the sheet out, before any street is drawn. *)
Definition header : worksheet :=
  [set_column 0 100 2]
    ++ map (fun i => set_row i 15) (map Z.of_nat (seq 0 100))
    ++ [merge_range "A1:Z1" "NYC Street Map" title_format].

(** The call that fills one cell of a street. *)
Definition fill (c : GridCell) : ws_call :=
  write (row c) (column c) "" street_format.

(** A street one of whose vertices lies so far east that the scaled offset
    overflows to infinity. *)
Definition overflowing_street : Row :=
  mkRow (LineString [(1e307%float, 40.75%float); ((-73.98)%float, 40.75%float)])
        None.

End Plan.

(** ** What a run does to the outside *)

Module Effects.

Import Geo Pipeline.

(** The events of a world that satisfy [P], in order. *)
Definition kept (P : event -> bool) (w : World) : list event :=
  filter P (log w).

(** Everything but what is shown on the terminal. *)
Definition is_effect (e : event) : bool :=
  match e with
  | Print _ | Prompt _ => false
  | _ => true
  end.

Definition is_render (e : event) : bool :=
  match e with
  | SaveMap _ | SaveSvg _ => true
  | _ => false
  end.

(** The effects of a complete run, in the order [main] performs them. *)
Definition effects_of (env : Env) (address : string) : list event :=
  [ Geocode address;
    ReadFile (shapefile_path_of env);
    SaveMap ("street_map_" ++ now env ++ ".html");
    SaveSvg ("street_lines_" ++ now env ++ ".svg") ].

(** A line typed at the radius prompt that makes [get_user_input] ask
    again: not a number, or a number that is [<= 0]. *)
Definition rejected (env : Env) (line : string) : bool :=
  match parse_float env line with
  | None => true
  | Some radius => (radius <=? 0)%float
  end.

(** The exception [check_shapefile_files] raises for a file that is missing
    or cannot be read. *)
Definition file_error (env : Env) (file_path : string) : Py.exn :=
  if path_exists env file_path
  then Py.mkExn Py.PermissionError ("Cannot read file: " ++ file_path)
  else Py.mkExn Py.FileNotFoundError ("Required file not found: " ++ file_path).

(** The same collaborators with another geocoder. *)
Definition with_geocode (env : Env)
    (g : string -> Py.result (option Location)) : Env :=
  mkEnv (parse_float env) g (current_dir env) (getcwd env) (splitext_root env)
        (path_exists env) (access_R_OK env) (read_file env) (intersects env)
        (now env) (folium_render env) (pyplot_render env).

(** The small world with a geocoder that finds no address, and with one
    that places every address on Staten Island, some twenty kilometres from
    the two streets of the dataset. *)
Definition nowhere : Env := with_geocode Fixtures.complete (fun _ => inr None).
Definition remote : Env :=
  with_geocode Fixtures.complete
    (fun _ => inr (Some (mkLocation (-74.15)%float 40.58%float))).

(** The run reached the rendering: the input gave a radius, the geocoder a
    location, the dataset was read, and one of its rows at least meets the
    buffer of that radius around that location. *)
Definition found_streets (env : Env) (w : World) : Prop :=
  exists w1 radius l streets,
    get_user_input env w = (w1, inr (hd EmptyString (stdin w), radius)) /\
    geocode env (hd EmptyString (stdin w)) = inr (Some l) /\
    read_file env (shapefile_path_of env) = inr streets /\
    filter (fun r => intersects env (geometry r)
                       (mkBuffer (mkPoint (longitude l) (latitude l))
                                 (radius / 111000)%float))
           (rows streets) <> [].

End Effects.

(** * Proofs *)

(** ** The rasterizer *)

Module RasterFacts.

Import Raster.

(** *** Elementary facts about the loop *)

Lemma draw_loop_unfold fuel l p :
  draw_loop (S fuel) l p =
  if (pen_x p =? end_x l) && (pen_y p =? end_y l)
  then Some [mkCell (pen_x p) (pen_y p)]
  else option_map (cons (mkCell (pen_x p) (pen_y p)))
         (draw_loop fuel l (advance l p)).
Proof. reflexivity. Qed.

Lemma draw_loop_at_end fuel l p :
  pen_x p = end_x l -> pen_y p = end_y l ->
  draw_loop (S fuel) l p = Some [mkCell (pen_x p) (pen_y p)].
Proof.
  intros Hx Hy. rewrite draw_loop_unfold.
  rewrite Hx, Hy, !Z.eqb_refl. reflexivity.
Qed.

Lemma draw_loop_not_end fuel l p :
  pen_x p <> end_x l \/ pen_y p <> end_y l ->
  draw_loop (S fuel) l p =
  option_map (cons (mkCell (pen_x p) (pen_y p))) (draw_loop fuel l (advance l p)).
Proof.
  intros H. rewrite draw_loop_unfold.
  destruct (Z.eqb_spec (pen_x p) (end_x l)), (Z.eqb_spec (pen_y p) (end_y l));
    simpl; try reflexivity.
  destruct H; contradiction.
Qed.

(** More fuel never changes a result already reached. *)
Lemma draw_loop_more_fuel l : forall fuel p cells k,
  draw_loop fuel l p = Some cells -> draw_loop (fuel + k) l p = Some cells.
Proof.
  induction fuel as [|fuel IH]; intros p cells k H; [discriminate|].
  change (S fuel + k)%nat with (S (fuel + k)).
  rewrite draw_loop_unfold in *.
  destruct ((pen_x p =? end_x l) && (pen_y p =? end_y l)); [exact H|].
  destruct (draw_loop fuel l (advance l p)) as [rest|] eqn:E; [|discriminate].
  rewrite (IH _ _ k E). exact H.
Qed.

Lemma draw_loop_head l : forall fuel p cells,
  draw_loop fuel l p = Some cells ->
  exists rest, cells = mkCell (pen_x p) (pen_y p) :: rest.
Proof.
  intros [|fuel] p cells H; [discriminate|].
  rewrite draw_loop_unfold in H.
  destruct ((pen_x p =? end_x l) && (pen_y p =? end_y l)).
  - injection H as <-. eauto.
  - destruct (draw_loop fuel l (advance l p)); [|discriminate].
    injection H as <-. eauto.
Qed.

Lemma draw_loop_last l : forall fuel p cells d,
  draw_loop fuel l p = Some cells ->
  last cells d = mkCell (end_x l) (end_y l).
Proof.
  induction fuel as [|fuel IH]; intros p cells d H; [discriminate|].
  rewrite draw_loop_unfold in H.
  destruct (Z.eqb_spec (pen_x p) (end_x l)) as [Hx|Hx];
    [destruct (Z.eqb_spec (pen_y p) (end_y l)) as [Hy|Hy]|]; simpl in H.
  - injection H as <-. simpl. rewrite Hx, Hy. reflexivity.
  - destruct (draw_loop fuel l (advance l p)) as [rest|] eqn:E; [|discriminate].
    injection H as <-.
    destruct (draw_loop_head _ _ _ _ E) as [tl ->].
    change (last (_ :: _ :: tl) d) with (last (mkCell (pen_x (advance l p)) (pen_y (advance l p)) :: tl) d).
    eapply IH; eassumption.
  - destruct (draw_loop fuel l (advance l p)) as [rest|] eqn:E; [|discriminate].
    injection H as <-.
    destruct (draw_loop_head _ _ _ _ E) as [tl ->].
    change (last (_ :: _ :: tl) d) with (last (mkCell (pen_x (advance l p)) (pen_y (advance l p)) :: tl) d).
    eapply IH; eassumption.
Qed.


(** *** Termination of the walk *)

Section Walk.

Variable l : Line.
Hypothesis sx_unit : sx l = 1 \/ sx l = -1.
Hypothesis sy_unit : sy l = 1 \/ sy l = -1.

Lemma advance_x p :
  pen_x (advance l p) = if 2 * pen_err p >? - dy l then pen_x p + sx l else pen_x p.
Proof. unfold advance. destruct (_ >? _), (_ <? _); reflexivity. Qed.

Lemma advance_y p :
  pen_y (advance l p) = if 2 * pen_err p <? dx l then pen_y p + sy l else pen_y p.
Proof. unfold advance. destruct (_ >? _), (_ <? _); reflexivity. Qed.

Lemma advance_err p :
  pen_err (advance l p) =
  pen_err p - (if 2 * pen_err p >? - dy l then dy l else 0)
            + (if 2 * pen_err p <? dx l then dx l else 0).
Proof. unfold advance. destruct (_ >? _), (_ <? _); simpl; lia. Qed.

Lemma err_tracks_advance p : err_tracks l p -> err_tracks l (advance l p).
Proof.
  unfold err_tracks, togo_x, togo_y.
  rewrite advance_x, advance_y, advance_err. intros H.
  destruct sx_unit as [Sx|Sx], sy_unit as [Sy|Sy]; rewrite Sx, Sy in *;
    destruct (_ >? _), (_ <? _); lia.
Qed.

(** A line at least as wide as it is tall: every iteration moves one column,
    and the walk is over after [togo_x] more iterations. *)
Lemma run_wide :
  0 <= dy l <= dx l -> 0 < dx l ->
  forall (k : nat) (p : Pen),
    togo_x l p = Z.of_nat k ->
    err_tracks l p ->
    - dy l < 2 * pen_err p < 3 * dx l - 2 * dy l ->
    exists cells, draw_loop (S k) l p = Some cells /\ List.length cells = S k.
Proof.
  intros Hd Hpos. induction k as [|k IH]; intros p Hk Ht Hb.
  - assert (Hx : pen_x p = end_x l).
    { unfold togo_x in Hk. destruct sx_unit as [Sx|Sx]; rewrite Sx in Hk; lia. }
    assert (Hy : pen_y p = end_y l).
    { unfold err_tracks in Ht. rewrite Hk in Ht. unfold togo_y in Ht.
      destruct sy_unit as [Sy|Sy]; rewrite Sy in Ht; nia. }
    rewrite (draw_loop_at_end _ _ _ Hx Hy). eexists; split; reflexivity.
  - assert (Hx : pen_x p <> end_x l).
    { unfold togo_x in Hk. destruct sx_unit as [Sx|Sx]; rewrite Sx in Hk; lia. }
    rewrite draw_loop_not_end by (left; exact Hx).
    destruct (IH (advance l p)) as (cells & Hrun & Hlen).
    + unfold togo_x in *. rewrite advance_x.
      destruct (Z.gtb_spec (2 * pen_err p) (- dy l)); [|lia].
      destruct sx_unit as [Sx|Sx]; rewrite Sx in *; lia.
    + apply err_tracks_advance, Ht.
    + rewrite advance_err.
      destruct (Z.gtb_spec (2 * pen_err p) (- dy l)); [|lia].
      destruct (Z.ltb_spec (2 * pen_err p) (dx l)); lia.
    + rewrite Hrun. eexists; split; [reflexivity|]. simpl. rewrite Hlen. reflexivity.
Qed.

(** A line taller than it is wide: every iteration moves one row. *)
Lemma run_tall :
  0 <= dx l < dy l ->
  forall (k : nat) (p : Pen),
    togo_y l p = Z.of_nat k ->
    err_tracks l p ->
    2 * dx l - 3 * dy l < 2 * pen_err p < dx l ->
    exists cells, draw_loop (S k) l p = Some cells /\ List.length cells = S k.
Proof.
  intros Hd. induction k as [|k IH]; intros p Hk Ht Hb.
  - assert (Hy : pen_y p = end_y l).
    { unfold togo_y in Hk. destruct sy_unit as [Sy|Sy]; rewrite Sy in Hk; lia. }
    assert (Hx : pen_x p = end_x l).
    { unfold err_tracks in Ht. rewrite Hk in Ht. unfold togo_x in Ht.
      destruct sx_unit as [Sx|Sx]; rewrite Sx in Ht; nia. }
    rewrite (draw_loop_at_end _ _ _ Hx Hy). eexists; split; reflexivity.
  - assert (Hy : pen_y p <> end_y l).
    { unfold togo_y in Hk. destruct sy_unit as [Sy|Sy]; rewrite Sy in Hk; lia. }
    rewrite draw_loop_not_end by (right; exact Hy).
    destruct (IH (advance l p)) as (cells & Hrun & Hlen).
    + unfold togo_y in *. rewrite advance_y.
      destruct (Z.ltb_spec (2 * pen_err p) (dx l)); [|lia].
      destruct sy_unit as [Sy|Sy]; rewrite Sy in *; lia.
    + apply err_tracks_advance, Ht.
    + rewrite advance_err.
      destruct (Z.ltb_spec (2 * pen_err p) (dx l)); [|lia].
      destruct (Z.gtb_spec (2 * pen_err p) (- dy l)); lia.
    + rewrite Hrun. eexists; split; [reflexivity|]. simpl. rewrite Hlen. reflexivity.
Qed.

End Walk.

Lemma line_of_sx x0 y0 x1 y1 :
  sx (line_of x0 y0 x1 y1) = 1 \/ sx (line_of x0 y0 x1 y1) = -1.
Proof. simpl. destruct (x0 <? x1); auto. Qed.

Lemma line_of_sy x0 y0 x1 y1 :
  sy (line_of x0 y0 x1 y1) = 1 \/ sy (line_of x0 y0 x1 y1) = -1.
Proof. simpl. destruct (y0 <? y1); auto. Qed.

Lemma draw_line_runs x0 y0 x1 y1 :
  exists cells,
    draw_line (iterations x0 y0 x1 y1) x0 y0 x1 y1 = Some cells /\
    List.length cells = iterations x0 y0 x1 y1.
Proof.
  unfold draw_line, iterations.
  set (l := line_of x0 y0 x1 y1).
  set (p := {| pen_x := x0; pen_y := y0; pen_err := dx l - dy l |}).
  assert (Hgx : togo_x l p = dx l).
  { unfold togo_x; simpl. destruct (Z.ltb_spec x0 x1); lia. }
  assert (Hgy : togo_y l p = dy l).
  { unfold togo_y; simpl. destruct (Z.ltb_spec y0 y1); lia. }
  assert (Ht : err_tracks l p).
  { unfold err_tracks. rewrite Hgx, Hgy. simpl. lia. }
  change (Z.abs (x1 - x0)) with (dx l). change (Z.abs (y1 - y0)) with (dy l).
  assert (He : pen_err p = dx l - dy l) by reflexivity.
  assert (Hdx : 0 <= dx l) by (simpl; lia).
  assert (Hdy : 0 <= dy l) by (simpl; lia).
  destruct (Z_le_gt_dec (dy l) (dx l)) as [Hwide|Htall].
  - rewrite Z.max_l by lia.
    destruct (Z.eq_dec (dx l) 0) as [Hz|Hnz].
    + rewrite Hz. simpl Z.to_nat.
      assert (x0 = x1 /\ y0 = y1) as [Hx Hy] by (simpl in Hz, Hwide; lia).
      rewrite draw_loop_at_end by (simpl; auto).
      eexists; split; reflexivity.
    + apply (run_wide l (line_of_sx _ _ _ _) (line_of_sy _ _ _ _));
        [lia | lia | rewrite Hgx; lia | exact Ht | rewrite He; lia].
  - rewrite Z.max_r by lia.
    apply (run_tall l (line_of_sx _ _ _ _) (line_of_sy _ _ _ _));
      [lia | rewrite Hgy; lia | exact Ht | rewrite He; lia].
Qed.

Lemma draw_line_emits (start finish : GridCell) :
  exists cells, emits start finish cells /\
    List.length cells
    = iterations (column start) (row start) (column finish) (row finish).
Proof.
  destruct (draw_line_runs (column start) (row start) (column finish) (row finish))
    as (cells & Hrun & Hlen).
  exists cells. split; [|exact Hlen].
  eexists. intros k. apply draw_loop_more_fuel. exact Hrun.
Qed.

Lemma emits_run start finish cells :
  emits start finish cells ->
  exists fuel,
    draw_line fuel (column start) (row start) (column finish) (row finish)
    = Some cells.
Proof. intros [n H]. exists (n + 0)%nat. apply H. Qed.

(** *** Shape of the emitted sequence *)

Lemma adjacent8_advance l p :
  (sx l = 1 \/ sx l = -1) -> (sy l = 1 \/ sy l = -1) ->
  adjacent8 (mkCell (pen_x p) (pen_y p))
            (mkCell (pen_x (advance l p)) (pen_y (advance l p))).
Proof.
  intros Hx Hy. unfold adjacent8; simpl.
  rewrite advance_x, advance_y.
  destruct (_ >? _), (_ <? _); lia.
Qed.

Lemma draw_loop_connected l :
  (sx l = 1 \/ sx l = -1) -> (sy l = 1 \/ sy l = -1) ->
  forall fuel p cells, draw_loop fuel l p = Some cells -> connected8 cells.
Proof.
  intros Hx Hy. induction fuel as [|fuel IH]; intros p cells H; [discriminate|].
  rewrite draw_loop_unfold in H.
  destruct ((pen_x p =? end_x l) && (pen_y p =? end_y l)).
  - injection H as <-. exact I.
  - destruct (draw_loop fuel l (advance l p)) as [rest|] eqn:E; [|discriminate].
    injection H as <-.
    destruct (draw_loop_head _ _ _ _ E) as [tl Htl].
    pose proof (IH _ _ E) as Hrest. rewrite Htl in *.
    split; [apply adjacent8_advance; assumption | exact Hrest].
Qed.

Lemma ends_split (A : Type) (a b : A) (tl : list A) :
  a <> b -> last (a :: tl) a = b -> exists mid, a :: tl = a :: mid ++ [b].
Proof.
  intros Hab Hlast.
  destruct (exists_last (l := tl)) as (mid & z & ->).
  - intros ->. simpl in Hlast. contradiction.
  - exists mid. rewrite app_comm_cons, last_last in Hlast. subst z. reflexivity.
Qed.

(** *** The loop against the walk of the specification *)

Lemma update_advance l p :
  Spec.update (dx l) (dy l) (sx l) (sy l) (pen_x p) (pen_y p) (pen_err p)
  = (pen_x (advance l p), pen_y (advance l p), pen_err (advance l p)).
Proof.
  unfold Spec.update, advance.
  destruct (_ >? _), (_ <? _); reflexivity.
Qed.

Lemma draw_loop_walk l : forall fuel p cells,
  draw_loop fuel l p = Some cells ->
  Spec.walk (dx l) (dy l) (sx l) (sy l) (end_x l) (end_y l)
            (pen_x p) (pen_y p) (pen_err p) cells.
Proof.
  induction fuel as [|fuel IH]; intros p cells H; [discriminate|].
  rewrite draw_loop_unfold in H.
  destruct ((pen_x p =? end_x l) && (pen_y p =? end_y l)) eqn:T.
  - injection H as <-.
    apply andb_true_iff in T. destruct T as [Tx Ty].
    apply Z.eqb_eq in Tx, Ty. rewrite Tx, Ty. constructor.
  - destruct (draw_loop fuel l (advance l p)) as [rest|] eqn:E; [|discriminate].
    injection H as <-.
    eapply Spec.walk_step.
    + intros Heq. injection Heq as Ex Ey.
      rewrite Ex, Ey, !Z.eqb_refl in T. discriminate.
    + apply update_advance.
    + apply IH, E.
Qed.

Lemma walk_functional dx dy sx sy x1 y1 x y err cells :
  Spec.walk dx dy sx sy x1 y1 x y err cells ->
  forall cells', Spec.walk dx dy sx sy x1 y1 x y err cells' -> cells' = cells.
Proof.
  induction 1 as [err | x y err x' y' err' cells Hne Hup _ IH]; intros cells' H'.
  - inversion H' as [|? ? ? ? ? ? ? Hne' ]; subst; [reflexivity|].
    exfalso. apply Hne'. reflexivity.
  - inversion H' as [|? ? ? x'' y'' err'' cells'' Hne' Hup' Hw']; subst.
    + exfalso. apply Hne. reflexivity.
    + rewrite Hup in Hup'. injection Hup' as <- <- <-.
      f_equal. apply IH, Hw'.
Qed.

(** *** The claims about [draw_line] *)

(** C2: for every start and end cell, [draw_line] returns a cell sequence,
    that sequence is one the line walk of the specification produces
    (dx, dy, sx, sy and err as stated, the current cell emitted at each step,
    the walk over once the end cell is emitted, both tests of the update
    reading the err the step began with), and the walk produces no other. *)
Theorem draw_line_refines_walk (start finish : GridCell) :
  exists cells,
    emits start finish cells /\
    Spec.segments start finish cells /\
    forall cells', Spec.segments start finish cells' -> cells' = cells.
Proof.
  destruct (draw_line_emits start finish) as (cells & Hemit & _).
  exists cells.
  destruct (emits_run _ _ _ Hemit) as [fuel Hrun].
  assert (Hwalk : Spec.segments start finish cells)
    by (apply (draw_loop_walk _ _ _ _ Hrun)).
  repeat split; [exact Hemit | exact Hwalk |].
  intros cells' H'. exact (walk_functional _ _ _ _ _ _ _ _ _ _ Hwalk _ H').
Qed.

(** C3: for every start and end cell, negative and far outside the grid
    included, the loop of [draw_line] ends: it returns a (finite) list of
    cells, after one more iteration than the larger of the two distances. *)
Theorem draw_line_terminates (start finish : GridCell) :
  exists cells,
    emits start finish cells /\
    List.length cells
    = iterations (column start) (row start) (column finish) (row finish).
Proof. exact (draw_line_emits start finish). Qed.

(** C4: when start and end differ, the sequence [draw_line] returns begins
    with the start cell and finishes with the end cell. *)
Theorem draw_line_endpoints (start finish : GridCell) :
  start <> finish ->
  exists mid, emits start finish (start :: mid ++ [finish]).
Proof.
  intros Hne.
  destruct (draw_line_emits start finish) as (cells & Hemit & _).
  destruct (emits_run _ _ _ Hemit) as [fuel Hrun].
  destruct (draw_loop_head _ _ _ _ Hrun) as [tl Hhead].
  pose proof (draw_loop_last _ _ _ _ start Hrun) as Hlast.
  simpl in Hhead, Hlast.
  assert (Hs : {| column := column start; row := row start |} = start)
    by (destruct start; reflexivity).
  assert (Hf : {| column := column finish; row := row finish |} = finish)
    by (destruct finish; reflexivity).
  rewrite Hs in Hhead. rewrite Hf in Hlast. subst cells.
  destruct (ends_split _ _ _ _ Hne Hlast) as [mid Hmid].
  exists mid. rewrite <- Hmid. exact Hemit.
Qed.

(** C5: for every start and end cell, any two consecutive cells of the
    sequence [draw_line] returns differ by at most one column and at most
    one row. *)
Theorem draw_line_connected (start finish : GridCell) :
  exists cells, emits start finish cells /\ connected8 cells.
Proof.
  destruct (draw_line_emits start finish) as (cells & Hemit & _).
  exists cells. split; [exact Hemit|].
  destruct (emits_run _ _ _ Hemit) as [fuel Hrun].
  eapply draw_loop_connected; [apply line_of_sx | apply line_of_sy | exact Hrun].
Qed.

(** C6: started with the end cell equal to the start cell [p], [draw_line]
    returns the single cell [p], and its first iteration is its last: one
    unit of fuel is enough. *)
Theorem draw_line_single_cell (p : GridCell) (more : nat) :
  draw_line (1 + more) (column p) (row p) (column p) (row p) = Some [p].
Proof.
  unfold draw_line. rewrite draw_loop_at_end by reflexivity.
  destruct p; reflexivity.
Qed.

(** An instance of [draw_line_endpoints]. *)
Lemma draw_line_endpoints_witness :
  mkCell 50 50 <> mkCell 53 48 /\
  exists mid, emits (mkCell 50 50) (mkCell 53 48) (mkCell 50 50 :: mid ++ [mkCell 53 48]).
Proof.
  split.
  - discriminate.
  - apply (draw_line_endpoints (mkCell 50 50) (mkCell 53 48)). discriminate.
Defined.

(** Runs of the loop on small inputs. *)
Example draw_line_shallow :
  draw_line 10 0 0 5 2
  = Some [mkCell 0 0; mkCell 1 0; mkCell 2 1; mkCell 3 1; mkCell 4 2; mkCell 5 2].
Proof. reflexivity. Qed.

Example draw_line_steep_backwards :
  draw_line 10 1 1 0 (-3)
  = Some [mkCell 1 1; mkCell 1 0; mkCell 1 (-1); mkCell 0 (-2); mkCell 0 (-3)].
Proof. reflexivity. Qed.

Example draw_line_out_of_fuel : draw_line 3 0 0 5 2 = None.
Proof. reflexivity. Qed.

(** Were the second test of the update to read the [err] already changed by
    the first, the walk would differ from the loop: from (0,0) to (2,1) the
    loop's second cell is (1,0), and the other reading gives (1,1). *)
Example second_test_reads_initial_err :
  draw_line 3 0 0 2 1 = Some [mkCell 0 0; mkCell 1 0; mkCell 2 1] /\
  (let err := 2 - 1 in
   let err1 := if 2 * err >? - 1 then err - 1 else err in
   (2 * err <? 2) = false /\ (2 * err1 <? 2) = true).
Proof. split; [reflexivity | split; reflexivity]. Qed.

End RasterFacts.

(** ** The projector *)

Module ProjectorFacts.

Import Projector.

(** *** [int] on a float rounds toward zero *)

Lemma pow2_pos (e : Z) :
  e < 0 -> Z.pos (2 ^ Z.to_pos (- e))%positive = 2 ^ (- e).
Proof.
  intros He. rewrite Pos2Z.inj_pow, Z2Pos.id by lia. reflexivity.
Qed.

Lemma shiftl_neg (m : positive) (e : Z) :
  e < 0 -> Z.shiftl (Z.pos m) e = Z.pos m / 2 ^ (- e).
Proof.
  intros He. rewrite <- Z.shiftr_opp_r. apply Z.shiftr_div_pow2. lia.
Qed.

Lemma int_finite (s : bool) (m : positive) (e : Z) :
  (if s then - Z.shiftl (Z.pos m) e else Z.shiftl (Z.pos m) e)
  = toward_zero (Py.Q_of_SF (S754_finite s m e)).
Proof.
  unfold toward_zero, Py.Q_of_SF.
  destruct (Z.leb_spec 0 e) as [He|He].
  - rewrite Z.shiftl_mul_pow2 by exact He.
    assert (Hp : 0 < 2 ^ e) by (apply Z.pow_pos_nonneg; lia).
    destruct s.
    + replace (Qle_bool 0 (inject_Z (Z.neg m * 2 ^ e))) with false.
      * rewrite Qceiling_Z. lia.
      * symmetry. unfold Qle_bool, inject_Z; cbn [Qnum Qden]. apply Z.leb_gt.
        pose proof (Pos2Z.neg_is_neg m). nia.
    + replace (Qle_bool 0 (inject_Z (Z.pos m * 2 ^ e))) with true.
      * rewrite Qfloor_Z. reflexivity.
      * symmetry. unfold Qle_bool, inject_Z; cbn [Qnum Qden]. apply Z.leb_le.
        pose proof (Pos2Z.is_pos m). nia.
  - rewrite shiftl_neg by exact He.
    destruct s.
    + replace (Qle_bool 0 (Z.neg m # 2 ^ Z.to_pos (- e))) with false
        by (symmetry; unfold Qle_bool; cbn [Qnum Qden]; apply Z.leb_gt; lia).
      unfold Qceiling, Qfloor, Qopp; simpl Qnum; simpl Qden.
      rewrite pow2_pos by exact He. reflexivity.
    + replace (Qle_bool 0 (Z.pos m # 2 ^ Z.to_pos (- e))) with true
        by (symmetry; unfold Qle_bool; cbn [Qnum Qden]; apply Z.leb_le; lia).
      unfold Qfloor. rewrite pow2_pos by exact He. reflexivity.
Qed.

Lemma int_toward_zero (f : float) :
  Py.finite f = true -> Py.int f = inr (toward_zero (Py.Q_of_float f)).
Proof.
  unfold Py.finite, Py.int, Py.Q_of_float.
  destruct (Prim2SF f) as [s| s | |s m e]; try discriminate; intros _.
  - reflexivity.
  - f_equal. apply int_finite.
Qed.

(** Rounding toward zero is the floor exactly on the non-negative values
    and on the integers. *)
Lemma toward_zero_floor (q : Q) :
  toward_zero q = Qfloor q <-> (0 <= q)%Q \/ (inject_Z (Qfloor q) == q)%Q.
Proof.
  unfold toward_zero.
  destruct (Qle_bool 0 q) eqn:E.
  - apply Qle_bool_iff in E. tauto.
  - assert (Hneg : ~ (0 <= q)%Q) by (rewrite <- Qle_bool_iff, E; discriminate).
    split.
    + intros H. right.
      apply Qle_antisym; [apply Qfloor_le|].
      rewrite <- H. apply Qle_ceiling.
    + intros [H|H]; [contradiction|].
      rewrite <- H at 1. apply Qceiling_Z.
Qed.

(** *** The loop is a map *)

Lemma convert_loop_app coords center_lon center_lat scale : forall acc,
  convert_loop coords center_lon center_lat scale acc
  = (cs <- convert_loop coords center_lon center_lat scale [] ;; inr (acc ++ cs)).
Proof.
  induction coords as [|[lon lat] rest IH]; intros acc; simpl.
  - rewrite app_nil_r. reflexivity.
  - destruct (excel_coord lon lat center_lon center_lat scale) as [e|c]; simpl;
      [reflexivity|].
    rewrite IH. rewrite (IH [c]).
    destruct (convert_loop rest center_lon center_lat scale []) as [e|cs]; simpl;
      [reflexivity|].
    rewrite <- app_assoc. reflexivity.
Qed.

Lemma convert_cons lon lat rest center_lon center_lat scale :
  convert_coords_to_excel_coords ((lon, lat) :: rest) center_lon center_lat scale
  = (c <- excel_coord lon lat center_lon center_lat scale ;;
     cs <- convert_coords_to_excel_coords rest center_lon center_lat scale ;;
     inr (c :: cs)).
Proof.
  unfold convert_coords_to_excel_coords; simpl.
  destruct (excel_coord lon lat center_lon center_lat scale) as [e|c]; simpl;
    [reflexivity|].
  apply convert_loop_app.
Qed.

(** *** The claims about the projector *)

(** C1, as the code has it: for every list of coordinates, center and scale
    whose intermediate values [(lon - center_lon) * scale + 50] and
    [50 - (lat - center_lat) * scale] are finite, the projector returns for
    each coordinate the column and the row obtained by rounding these two
    values toward zero: the floor of a non-negative value, the ceiling of a
    negative one. *)
Theorem convert_coords_rounds_toward_zero
    (coords : list (float * float)) (center_lon center_lat scale : float) :
  (forall lon lat, In (lon, lat) coords ->
     Py.finite (column_value lon center_lon scale) = true /\
     Py.finite (row_value lat center_lat scale) = true) ->
  convert_coords_to_excel_coords coords center_lon center_lat scale
  = inr (map (fun c =>
           (toward_zero (Py.Q_of_float (column_value (fst c) center_lon scale)),
            toward_zero (Py.Q_of_float (row_value (snd c) center_lat scale))))
         coords).
Proof.
  induction coords as [|[lon lat] rest IH]; intros Hfin; [reflexivity|].
  rewrite convert_cons.
  destruct (Hfin lon lat (or_introl eq_refl)) as [Hc Hr].
  unfold excel_coord.
  change ((lon - center_lon) * scale + 50)%float with (column_value lon center_lon scale).
  change (50 - (lat - center_lat) * scale)%float with (row_value lat center_lat scale).
  rewrite (int_toward_zero _ Hc), (int_toward_zero _ Hr). simpl.
  rewrite IH by (intros lon' lat' Hin; apply Hfin; right; exact Hin).
  reflexivity.
Qed.

(** An instance of [convert_coords_rounds_toward_zero], half a degree west
    and north of the window: both values are just below -0.5 and both round
    up, to 0. *)
Lemma convert_coords_rounds_toward_zero_witness :
  convert_coords_to_excel_coords [((-74.4907)%float, 41.2534%float)]
    (-73.9857)%float 40.7484%float default_scale
  = inr [(0, 0)].
Proof.
  apply (convert_coords_rounds_toward_zero
           [((-74.4907)%float, 41.2534%float)]
           (-73.9857)%float 40.7484%float default_scale).
  intros lon lat [H|[]]. injection H as <- <-.
  split; vm_compute; reflexivity.
Defined.

(** C1 as stated fails: with center (0, 0) and scale 1 the coordinate
    (-50.5, 50.5) has both intermediate values equal to -0.5; the projector
    returns column 0 and row 0, and the floor is -1 for both. *)
Lemma convert_coords_is_not_floor :
  convert_coords_to_excel_coords [((-50.5)%float, 50.5%float)] 0%float 0%float 1%float
  = inr [(0, 0)] /\
  Spec.project (-50.5)%float 50.5%float 0%float 0%float 1%float = mkCell (-1) (-1).
Proof. split; vm_compute; reflexivity. Qed.

(** The same with the default scale and a center in Manhattan. *)
Example convert_coords_is_not_floor_default_scale :
  convert_coords_to_excel_coords [((-74.4907)%float, 41.2534%float)]
    (-73.9857)%float 40.7484%float default_scale
  = inr [(0, 0)] /\
  Spec.project (-74.4907)%float 41.2534%float (-73.9857)%float 40.7484%float
    default_scale = mkCell (-1) (-1).
Proof. split; vm_compute; reflexivity. Qed.

(** Where the values are not negative the projector and the floor agree. *)
Example convert_coords_floor_inside_window :
  convert_coords_to_excel_coords [((-73.9850)%float, 40.7490%float)]
    (-73.9857)%float 40.7484%float default_scale
  = inr [(50, 49)] /\
  Spec.project (-73.9850)%float 40.7490%float (-73.9857)%float 40.7484%float
    default_scale = mkCell 50 49.
Proof. split; vm_compute; reflexivity. Qed.

(** Infinite and undefined values make [int] raise. *)
Example convert_coords_raises_on_nan :
  convert_coords_to_excel_coords [(nan, 0%float)] 0%float 0%float default_scale
  = Py.raise Py.ValueError "cannot convert float NaN to integer".
Proof. vm_compute. reflexivity. Qed.

(** C7, as the code has it: with center (-73.9857, 40.7484) and scale 100,
    the start (-73.9857, 40.7484) projects to column 50 and row 50, and the
    end (-73.9850, 40.7490) projects to column 50 and row 49: the row is
    below 50, the column is 50 itself, the end lying 0.07 of a cell east of
    the center. *)
Theorem scenario_projection :
  convert_coords_to_excel_coords
    [((-73.9857)%float, 40.7484%float); ((-73.9850)%float, 40.7490%float)]
    (-73.9857)%float 40.7484%float 100%float
  = inr [(50, 50); (50, 49)].
Proof. vm_compute. reflexivity. Qed.

(** C7 as stated fails: the end projects to a cell whose column is not
    above 50. *)
Lemma scenario_end_column_is_not_above_50 :
  exists excel_x excel_y,
    excel_coord (-73.9850)%float 40.7490%float (-73.9857)%float 40.7484%float
      100%float = inr (excel_x, excel_y) /\
    ~ 50 < excel_x.
Proof. exists 50, 49. split; [vm_compute; reflexivity | lia]. Qed.

End ProjectorFacts.

(** ** The rendering plan *)

Module ExcelFacts.

Import Geo Excel.

Lemma bind_ext_r {A B : Type} (m : Sheet A) (k1 k2 : A -> Sheet B) ws :
  (forall a ws', k1 a ws' = k2 a ws') -> bind m k1 ws = bind m k2 ws.
Proof.
  intros H. unfold bind. destruct (m ws) as [[ws' [e|a]]|]; auto.
Qed.

Lemma try_except_ext {A : Type} (m1 m2 : Sheet A) h ws :
  m1 ws = m2 ws -> try_except m1 h ws = try_except m2 h ws.
Proof. intros H. unfold try_except. rewrite H. reflexivity. Qed.

(** A row that is not a [LineString] leaves the worksheet as it was and
    raises nothing. *)
Lemma render_row_other fuel center_lon center_lat r ws :
  isinstance_LineString (geometry r) = false ->
  render_row fuel center_lon center_lat r ws = Some (ws, inr tt).
Proof.
  unfold render_row. destruct (geometry r); try discriminate; reflexivity.
Qed.

Lemma for_each_rows_filter fuel center_lon center_lat : forall streets ws,
  for_each streets (render_row fuel center_lon center_lat) ws
  = for_each (filter (fun r => isinstance_LineString (geometry r)) streets)
             (render_row fuel center_lon center_lat) ws.
Proof.
  induction streets as [|r rest IH]; intros ws; [reflexivity|].
  simpl. destruct (isinstance_LineString (geometry r)) eqn:E.
  - simpl. apply bind_ext_r. intros _ ws'. apply IH.
  - unfold bind at 1. rewrite (render_row_other _ _ _ _ _ E). apply IH.
Qed.

(** C10: a row whose geometry is not a [LineString] (a multi-part line, a
    point, a polygon, no geometry at all) makes [export_streets_to_excel]
    write no cell and raise nothing: its pass through the loop body leaves
    the worksheet unchanged, and the export of a data frame is the export of
    its [LineString] rows alone. *)
Theorem export_skips_other_geometries (fuel : nat)
    (workbook_close : string -> Py.result unit)
    (streets_data : list Row) (center_point : Point) (output_path : string) :
  (forall r ws,
     isinstance_LineString (geometry r) = false ->
     render_row fuel (point_x center_point) (point_y center_point) r ws
     = Some (ws, inr tt)) /\
  export_streets_to_excel fuel workbook_close streets_data center_point output_path
  = export_streets_to_excel fuel workbook_close
      (filter (fun r => isinstance_LineString (geometry r)) streets_data)
      center_point output_path.
Proof.
  split.
  - intros r ws. apply render_row_other.
  - unfold export_streets_to_excel.
    apply try_except_ext.
    apply bind_ext_r; intros _ ws1.
    apply bind_ext_r; intros _ ws2.
    apply bind_ext_r; intros _ ws3.
    unfold bind at 1 3. rewrite for_each_rows_filter. reflexivity.
Qed.

(** A frame with a multi-part line between two lines: only the two lines are
    drawn, each vertex pair by its own walk, the shared vertex cell of
    consecutive segments written twice.  (The float subtractions leave the
    offsets of 0.02 and 0.01 degrees a little off 2 and 1 cells, and [int]
    drops what stands after the point.) *)
Example export_mixed_frame :
  let frame :=
    [ mkRow (LineString [((-73.9857)%float, 40.7484%float);
                         ((-73.9657)%float, 40.7484%float);
                         ((-73.9657)%float, 40.7684%float)]) None;
      mkRow (MultiLineString [[((-73.99)%float, 40.75%float);
                               ((-73.98)%float, 40.76%float)]]) None;
      mkRow (LineString [((-73.9957)%float, 40.7484%float);
                         ((-73.9857)%float, 40.7384%float)]) None ] in
  option_map (fun out => (written_cells (fst out), snd out))
    (export_streets_to_excel 10 (fun _ => inr tt) frame
       (mkPoint (-73.9857)%float 40.7484%float) "map.xlsx")
  = Some ([mkCell 50 50; mkCell 51 50;
           mkCell 51 50; mkCell 51 49; mkCell 51 48; mkCell 51 47;
           mkCell 48 50; mkCell 49 50; mkCell 50 50], inr true).
Proof. vm_compute. reflexivity. Qed.

End ExcelFacts.

(** ** The pipeline *)

Module PipelineFacts.

Import Geo Pipeline.

(** *** Stepping through [bind] and [try_except] *)

Lemma try_bind_ok {A B : Type} (m : IO A) (k : A -> IO B) h w w' a :
  m w = (w', inr a) -> try_except (bind m k) h w = try_except (k a) h w'.
Proof. intros H. unfold try_except, bind. rewrite H. reflexivity. Qed.

Lemma try_bind_raise {A B : Type} (m : IO A) (k : A -> IO B) h w w' e :
  m w = (w', inl e) -> try_except (bind m k) h w = h e w'.
Proof. intros H. unfold try_except, bind. rewrite H. reflexivity. Qed.

Lemma reads_bind {A B : Type} (m : IO A) (k : A -> IO B) w :
  reads (fst (m w)) = reads w ->
  (forall a w', m w = (w', inr a) -> reads (fst (k a w')) = reads w') ->
  reads (fst (bind m k w)) = reads w.
Proof.
  intros Hm Hk. unfold bind.
  destruct (m w) as [w' [e|a]] eqn:E; simpl in *; [exact Hm|].
  rewrite (Hk a w' eq_refl). exact Hm.
Qed.

Lemma reads_try_except {A : Type} (m : IO A) h w :
  reads (fst (m w)) = reads w ->
  (forall e w', reads (fst (h e w')) = reads w') ->
  reads (fst (try_except m h w)) = reads w.
Proof.
  intros Hm Hh. unfold try_except.
  destruct (m w) as [w' [e|a]] eqn:E; simpl in *; [|exact Hm].
  rewrite Hh. exact Hm.
Qed.

Lemma reads_emit e w :
  is_ReadFile e = false -> reads (fst (emit e w)) = reads w.
Proof.
  intros H. unfold reads, emit; simpl.
  rewrite filter_app; simpl. rewrite H. apply app_nil_r.
Qed.

Lemma reads_print text w : reads (fst (print text w)) = reads w.
Proof. apply reads_emit. reflexivity. Qed.

Lemma bind_print {B : Type} text (k : unit -> IO B) w :
  bind (print text) k w = k tt (fst (print text w)).
Proof. reflexivity. Qed.

Lemma reads_lift {A : Type} (r : Py.result A) w : reads (fst (lift r w)) = reads w.
Proof. reflexivity. Qed.

(** *** [get_user_input] *)

Lemma radius_loop_accepts env : forall lines seen w radius,
  radius_loop env lines seen = (w, inr radius) -> (radius <=? 0)%float = false.
Proof.
  induction lines as [|line rest IH]; intros seen w radius H; simpl in H.
  - discriminate.
  - destruct (parse_float env line) as [r|]; [|eapply IH; exact H].
    destruct (r <=? 0)%float eqn:E; [eapply IH; exact H|].
    injection H as _ <-. exact E.
Qed.

Lemma radius_loop_reads env : forall lines seen,
  filter is_ReadFile (log (fst (radius_loop env lines seen)))
  = filter is_ReadFile seen.
Proof.
  induction lines as [|line rest IH]; intros seen; simpl.
  - rewrite filter_app. apply app_nil_r.
  - destruct (parse_float env line) as [r|].
    + destruct (r <=? 0)%float.
      * rewrite IH, !filter_app. simpl. rewrite !app_nil_r. reflexivity.
      * simpl. rewrite filter_app. apply app_nil_r.
    + rewrite IH, !filter_app. simpl. rewrite !app_nil_r. reflexivity.
Qed.

Lemma get_user_input_accepts env w w' address radius :
  get_user_input env w = (w', inr (address, radius)) ->
  (radius <=? 0)%float = false.
Proof.
  unfold get_user_input, bind, print, emit, input, ret.
  destruct w as [[|line rest] seen]; simpl; [discriminate|].
  match goal with
  | |- context [radius_loop env rest ?seen] =>
      destruct (radius_loop env rest seen) as [w1 [e|r]] eqn:E; [discriminate|]
  end.
  intros H. injection H as _ _ <-.
  eapply radius_loop_accepts. exact E.
Qed.

Lemma get_user_input_reads env w :
  reads (fst (get_user_input env w)) = reads w.
Proof.
  unfold get_user_input.
  apply reads_bind; [apply reads_print|]. intros _ w1 _.
  apply reads_bind.
  - unfold input, reads. destruct (stdin w1); simpl;
      rewrite filter_app; apply app_nil_r.
  - intros address w2 _.
    apply reads_bind; [apply radius_loop_reads|].
    intros radius w3 _. reflexivity.
Qed.

Lemma geocode_address_reads env address w :
  reads (fst (geocode_address env address w)) = reads w.
Proof.
  unfold geocode_address.
  apply reads_try_except; [|intros e w'; reflexivity].
  apply reads_bind; [apply reads_emit; reflexivity|]. intros _ w1 _.
  apply reads_bind; [apply reads_lift|]. intros [l|] w2 _; reflexivity.
Qed.

Lemma get_shapefile_path_spec env w :
  reads (fst (get_shapefile_path env w)) = reads w /\
  snd (get_shapefile_path env w) = inr (shapefile_path_of env).
Proof.
  split; [|reflexivity].
  unfold get_shapefile_path.
  apply reads_bind; [apply reads_print|]. intros _ w1 _.
  apply reads_bind; [apply reads_print|]. intros _ w2 _. reflexivity.
Qed.

(** *** [check_shapefile_files] *)

Lemma check_file_ok env base_path ext w :
  file_ok env base_path ext = true ->
  exists w', check_file env base_path ext w = (w', inr tt) /\ reads w' = reads w.
Proof.
  unfold file_ok. intros H. apply andb_true_iff in H. destruct H as [He Ha].
  unfold check_file, bind, print, emit, raise, lift, ret. simpl.
  rewrite He, Ha. simpl. eexists; split; [reflexivity|].
  unfold reads; simpl. rewrite filter_app. apply app_nil_r.
Qed.

Lemma check_file_fails env base_path ext w :
  file_ok env base_path ext = false ->
  exists w' e, check_file env base_path ext w = (w', inl e) /\
               is_data_error e = true /\ reads w' = reads w.
Proof.
  unfold file_ok. intros H.
  unfold check_file, bind, print, emit, raise, lift, ret. simpl.
  destruct (path_exists env (base_path ++ ext)); simpl in *.
  - rewrite H. simpl. do 2 eexists. split; [reflexivity|]. split; [reflexivity|].
    unfold reads; simpl. rewrite filter_app. apply app_nil_r.
  - do 2 eexists. split; [reflexivity|]. split; [reflexivity|].
    unfold reads; simpl. rewrite filter_app. apply app_nil_r.
Qed.

Lemma check_loop_fails env base_path : forall exts w,
  forallb (file_ok env base_path) exts = false ->
  exists w' e, for_each exts (check_file env base_path) w = (w', inl e) /\
               is_data_error e = true /\ reads w' = reads w.
Proof.
  induction exts as [|ext rest IH]; intros w H; [discriminate|].
  simpl in H. simpl for_each. unfold bind.
  destruct (file_ok env base_path ext) eqn:E.
  - destruct (check_file_ok env base_path ext w E) as (w1 & -> & Hr).
    destruct (IH w1 H) as (w' & e & -> & He & Hr').
    exists w', e. repeat split; [exact He | congruence].
  - destruct (check_file_fails env base_path ext w E) as (w' & e & -> & He & Hr).
    exists w', e. repeat split; assumption.
Qed.

Lemma check_loop_accepts env base_path : forall exts w,
  forallb (file_ok env base_path) exts = true ->
  exists w', for_each exts (check_file env base_path) w = (w', inr tt) /\
             reads w' = reads w.
Proof.
  induction exts as [|ext rest IH]; intros w H.
  - exists w. split; reflexivity.
  - simpl in H. apply andb_true_iff in H. destruct H as [E H].
    simpl for_each. unfold bind.
    destruct (check_file_ok env base_path ext w E) as (w1 & -> & Hr).
    destruct (IH w1 H) as (w' & -> & Hr').
    exists w'. split; [reflexivity | congruence].
Qed.

Lemma check_fails env path w :
  companions_ok env path = false ->
  exists w' e, check_shapefile_files env path w = (w', inl e) /\
               is_data_error e = true /\ reads w' = reads w.
Proof.
  intros H. unfold check_shapefile_files.
  rewrite bind_print. unfold bind.
  destruct (check_loop_fails env (splitext_root env path) required_extensions
              (fst (print (nl ++ "Checking the following files:") w)) H)
    as (w' & e & -> & He & Hr).
  exists w', e. repeat split; [exact He|].
  rewrite Hr. apply reads_print.
Qed.

(** With every companion in place the check returns [True]. *)
Lemma check_accepts env path w :
  companions_ok env path = true ->
  exists w', check_shapefile_files env path w = (w', inr true) /\
             reads w' = reads w.
Proof.
  intros H. unfold check_shapefile_files.
  rewrite bind_print. unfold bind.
  destruct (check_loop_accepts env (splitext_root env path) required_extensions
              (fst (print (nl ++ "Checking the following files:") w)) H)
    as (w' & -> & Hr).
  exists w'. split; [reflexivity|].
  rewrite Hr. apply reads_print.
Qed.

(** *** The claims about the filter and the dataset check *)

(** C8, as the code has it: [extract_streets] never looks at the sign of the
    radius.  For every radius, zero and negative ones included, it returns
    the rows that intersect [center.buffer(radius / 111000)] whenever the
    dataset is read, and raises the generic "Error extracting street data"
    exception when the read fails.  A radius that is zero or negative is
    turned away upstream: [get_user_input] returns only a radius for which
    [radius <= 0] is false. *)
Theorem extract_streets_does_not_check_radius
    (env : Env) (center_point : Point) (radius : float) (shapefile_path : string)
    (w : World) :
  snd (extract_streets env center_point radius shapefile_path w)
  = match read_file env shapefile_path with
    | inl e =>
        Py.raise Py.Exception ("Error extracting street data: " ++ Py.exn_msg e)
    | inr streets =>
        inr (mkFrame
               (Some (match crs streets with Some code => code | None => 4326 end))
               (filter (fun r => intersects env (geometry r)
                                   (mkBuffer center_point (radius / 111000)%float))
                       (rows streets)))
    end /\
  (forall w0 w1 address accepted,
     get_user_input env w0 = (w1, inr (address, accepted)) ->
     (accepted <=? 0)%float = false).
Proof.
  split.
  - unfold extract_streets, try_except, bind, print, emit, lift, ret, raise. simpl.
    destruct (read_file env shapefile_path) as [e|streets]; simpl; [reflexivity|].
    destruct (crs streets) eqn:E; simpl; rewrite ?E; reflexivity.
  - intros w0 w1 address accepted. apply get_user_input_accepts.
Qed.

(** C8 as stated fails: with the dataset in place and a radius of 0, and of
    -5, [extract_streets] raises nothing and returns a (here empty) frame. *)
Lemma extract_streets_returns_for_radius_zero :
  snd (extract_streets Fixtures.complete Fixtures.empire_state 0%float
         (shapefile_path_of Fixtures.complete) (mkWorld [] []))
  = inr (mkFrame (Some 4326) []) /\
  snd (extract_streets Fixtures.complete Fixtures.empire_state (-5)%float
         (shapefile_path_of Fixtures.complete) (mkWorld [] []))
  = inr (mkFrame (Some 4326) []).
Proof. split; vm_compute; reflexivity. Qed.

(** C9, as the code has it: when a required companion of the dataset
    ([.shp], [.shx], [.dbf], [.prj]) is missing or unreadable,
    [check_shapefile_files] raises a [FileNotFoundError] or a
    [PermissionError] and returns nothing; [main] never reads the dataset,
    so [extract_streets] is never entered; and a run that got past the input
    and the geocoding runs the check, catches the error the check raised,
    prints "Error: " followed by that error's message, and returns
    normally: nothing is raised out of [main]. *)
Theorem missing_companion_stops_the_run (env : Env) :
  companions_ok env (shapefile_path_of env) = false ->
  (forall w, exists w' e,
      check_shapefile_files env (shapefile_path_of env) w = (w', inl e) /\
      is_data_error e = true /\
      reads w' = reads w) /\
  (forall w, reads (fst (main env w)) = reads w) /\
  (forall w w1 w2 address radius center_point,
      get_user_input env w = (w1, inr (address, radius)) ->
      geocode_address env address (fst (print (nl ++ "Geocoding address...") w1))
      = (w2, inr center_point) ->
      exists w' e,
        check_shapefile_files env (shapefile_path_of env)
          (fst (print (nl ++ "Checking Shapefile files...")
                  (fst (get_shapefile_path env w2))))
        = (w', inl e) /\
        is_data_error e = true /\
        main env w = (fst (print (nl ++ "Error: " ++ Py.exn_msg e) w'), inr tt)).
Proof.
  intros H. split; [|split].
  - intros w. apply check_fails, H.
  - intros w. unfold main.
    apply reads_try_except; [|intros e w'; apply reads_print].
    apply reads_bind; [apply get_user_input_reads|]. intros [address radius] w1 _.
    apply reads_bind; [apply reads_print|]. intros _ w2 _.
    apply reads_bind; [apply geocode_address_reads|]. intros center_point w3 _.
    apply reads_bind; [apply get_shapefile_path_spec|]. intros path w4 Hpath.
    assert (path = shapefile_path_of env) as ->.
    { pose proof (proj2 (get_shapefile_path_spec env w3)) as Hs.
      rewrite Hpath in Hs. simpl in Hs. injection Hs as ->. reflexivity. }
    apply reads_bind; [apply reads_print|]. intros _ w5 _.
    destruct (check_fails env (shapefile_path_of env) w5 H) as (w' & e & Hc & _ & Hr).
    apply reads_bind; rewrite Hc; [exact Hr | discriminate].
  - intros w w1 w2 address radius center_point Hinput Hgeo.
    destruct (check_fails env (shapefile_path_of env)
                (fst (print (nl ++ "Checking Shapefile files...")
                        (fst (get_shapefile_path env w2)))) H)
      as (w' & e & Hc & He & _).
    exists w', e. split; [exact Hc|]. split; [exact He|].
    unfold main.
    rewrite (try_bind_ok _ _ _ _ _ _ Hinput). cbv beta iota.
    rewrite (try_bind_ok _ _ _ _ _ _
               (eq_refl : print _ w1 = (fst (print _ w1), inr tt))).
    rewrite (try_bind_ok _ _ _ _ _ _ Hgeo).
    rewrite (try_bind_ok _ _ _ _ _ _
               (eq_refl : get_shapefile_path env w2
                          = (fst (get_shapefile_path env w2),
                             inr (shapefile_path_of env)))).
    rewrite (try_bind_ok _ _ _ _ _ _
               (eq_refl : print _ (fst (get_shapefile_path env w2))
                          = (fst (print (nl ++ "Checking Shapefile files...")
                                    (fst (get_shapefile_path env w2))), inr tt))).
    rewrite (try_bind_raise _ _ _ _ _ _ Hc).
    reflexivity.
Qed.

(** C9 as stated fails: with the [.prj] companion missing, nothing is raised
    out of the pipeline; [main] returns normally, its last act the printed
    report of the file that was not found. *)
Lemma main_returns_normally_without_prj :
  companions_ok Fixtures.without_prj (shapefile_path_of Fixtures.without_prj)
  = false /\
  snd (main Fixtures.without_prj (mkWorld ["350 5th Ave"; "250"]%string []))
  = inr tt /\
  last (log (fst (main Fixtures.without_prj
                    (mkWorld ["350 5th Ave"; "250"]%string []))))
       (Print "")
  = Print (nl ++ "Error: Required file not found: " ++ Fixtures.prj_path).
Proof. vm_compute. repeat split; reflexivity. Qed.

(** An instance of [missing_companion_stops_the_run]: the dataset without
    its [.prj] file. *)
Lemma missing_companion_stops_the_run_witness :
  companions_ok Fixtures.without_prj (shapefile_path_of Fixtures.without_prj) = false /\
  (forall w, reads (fst (main Fixtures.without_prj w)) = reads w).
Proof.
  split; [vm_compute; reflexivity|].
  apply (missing_companion_stops_the_run Fixtures.without_prj).
  vm_compute. reflexivity.
Defined.

(** The run of [main] on that dataset: the radius is asked for until one
    above zero is typed, the four files are checked in order, the missing
    one is reported, and the dataset is never read. *)
Example main_without_prj :
  let w := fst (main Fixtures.without_prj
                  (mkWorld ["350 5th Ave"; "abc"; "0"; "-5"; "250"]%string [])) in
  reads w = [] /\
  last (log w) (Print "")
  = Print (nl ++ "Error: Required file not found: " ++ Fixtures.prj_path).
Proof. vm_compute. split; reflexivity. Qed.

(** With every file in place the dataset is read once. *)
Example main_complete :
  reads (fst (main Fixtures.complete
                (mkWorld ["350 5th Ave"; "250"]%string [])))
  = [ReadFile (shapefile_path_of Fixtures.complete)].
Proof. vm_compute. reflexivity. Qed.

End PipelineFacts.

(** ** The shape of a walk *)

Module RasterShapeFacts.

Import Raster RasterShape.

(** *** One iteration, in numbers *)

Lemma wide_step (dx dy a b e : Z) :
  0 <= dy <= dx -> 0 < dx ->
  e = dx - dy + a * dy - b * dx ->
  0 <= a <= dx -> 0 <= b <= dy ->
  - dy < 2 * e -> dx - 2 * dy <= 2 * e < 3 * dx - 2 * dy ->
  a <> 0 \/ b <> 0 ->
  1 <= a /\ (2 * e < dx -> 1 <= b) /\
  (2 * e < dx ->
   - dy < 2 * (e - dy + dx) /\
   dx - 2 * dy <= 2 * (e - dy + dx) < 3 * dx - 2 * dy) /\
  (dx <= 2 * e ->
   - dy < 2 * (e - dy) /\ dx - 2 * dy <= 2 * (e - dy) < 3 * dx - 2 * dy).
Proof.
  intros Hd Hpos He Ha Hb Hlo Hbd Hne.
  assert (A1 : 1 <= a).
  { destruct (Z.eq_dec a 0) as [->|]; [|lia].
    assert (b <> 0) by (destruct Hne; [contradiction|assumption]).
    assert (1 <= b) by lia. nia. }
  split; [exact A1|]. split.
  - intros Hy. destruct (Z.eq_dec b 0) as [->|]; [|lia]. nia.
  - split; intros; nia.
Qed.

Lemma tall_step (dx dy a b e : Z) :
  0 <= dx < dy ->
  e = dx - dy + a * dy - b * dx ->
  0 <= a <= dx -> 0 <= b <= dy ->
  2 * dx - 3 * dy < 2 * e <= 2 * dx - dy ->
  a <> 0 \/ b <> 0 ->
  1 <= b /\ 2 * e < dx /\ (- dy < 2 * e -> 1 <= a) /\
  (- dy < 2 * e -> 2 * dx - 3 * dy < 2 * (e - dy + dx) <= 2 * dx - dy) /\
  (2 * e <= - dy -> 2 * dx - 3 * dy < 2 * (e + dx) <= 2 * dx - dy).
Proof.
  intros Hd He Ha Hb Hbd Hne.
  assert (B1 : 1 <= b).
  { destruct (Z.eq_dec b 0) as [->|]; [|lia].
    assert (1 <= a) by lia. nia. }
  split; [exact B1|]. split; [lia|]. split.
  - intros Hx. destruct (Z.eq_dec a 0) as [->|]; [|lia]. nia.
  - split; intros; nia.
Qed.

(** *** One iteration, on the pen *)

Section Track.

Variable l : Line.
Hypothesis sx_unit : sx l = 1 \/ sx l = -1.
Hypothesis sy_unit : sy l = 1 \/ sy l = -1.

Lemma togo_x_advance p :
  togo_x l (advance l p)
  = togo_x l p - (if 2 * pen_err p >? - dy l then 1 else 0).
Proof.
  unfold togo_x. rewrite RasterFacts.advance_x.
  destruct sx_unit as [S|S]; rewrite S; destruct (_ >? _); lia.
Qed.

Lemma togo_y_advance p :
  togo_y l (advance l p)
  = togo_y l p - (if 2 * pen_err p <? dx l then 1 else 0).
Proof.
  unfold togo_y. rewrite RasterFacts.advance_y.
  destruct sy_unit as [S|S]; rewrite S; destruct (_ <? _); lia.
Qed.

Lemma not_at_end p :
  pen_x p <> end_x l \/ pen_y p <> end_y l ->
  togo_x l p <> 0 \/ togo_y l p <> 0.
Proof.
  unfold togo_x, togo_y.
  destruct sx_unit as [Sx|Sx], sy_unit as [Sy|Sy]; rewrite Sx, Sy; lia.
Qed.

(** Away from the end cell an iteration keeps the invariant and crosses one
    cell of the longer side. *)
Lemma steady_advance p :
  steady l p ->
  pen_x p <> end_x l \/ pen_y p <> end_y l ->
  steady l (advance l p) /\ major l (advance l p) = major l p - 1.
Proof.
  intros (Ht & Ha & Hb & Hband) Hne.
  apply not_at_end in Hne.
  pose proof (RasterFacts.err_tracks_advance l sx_unit sy_unit p Ht) as Ht'.
  unfold steady, major.
  rewrite togo_x_advance, togo_y_advance, RasterFacts.advance_err.
  unfold err_tracks in Ht.
  destruct Hband as [(Hw & Hpos & Hlo & Hbd) | (Htall & Hbd)].
  - assert (Hd : 0 <= dy l <= dx l) by lia.
    destruct (wide_step _ _ _ _ _ Hd Hpos Ht Ha Hb Hlo Hbd Hne) as (A1 & B1 & Sy & Sn).
    destruct (Z.leb_spec (dy l) (dx l)); [|lia].
    destruct (Z.gtb_spec (2 * pen_err p) (- dy l)); [|lia].
    destruct (Z.ltb_spec (2 * pen_err p) (dx l)).
    + specialize (B1 ltac:(lia)). specialize (Sy ltac:(lia)).
      split; [|lia].
      split; [exact Ht'|]. split; [lia|]. split; [lia|]. left. lia.
    + specialize (Sn ltac:(lia)).
      split; [|lia].
      split; [exact Ht'|]. split; [lia|]. split; [lia|]. left. lia.
  - assert (Hd : 0 <= dx l < dy l) by lia.
    destruct (tall_step _ _ _ _ _ Hd Ht Ha Hb Hbd Hne) as (B1 & Hy & A1 & Sx & Sn).
    destruct (Z.leb_spec (dy l) (dx l)); [lia|].
    destruct (Z.ltb_spec (2 * pen_err p) (dx l)); [|lia].
    destruct (Z.gtb_spec (2 * pen_err p) (- dy l)).
    + specialize (A1 ltac:(lia)). specialize (Sx ltac:(lia)).
      split; [|lia].
      split; [exact Ht'|]. split; [lia|]. split; [lia|]. right. lia.
    + specialize (Sn ltac:(lia)).
      split; [|lia].
      split; [exact Ht'|]. split; [lia|]. split; [lia|]. right. lia.
Qed.

(** The cells of a run, by their position in the list: each is the cell of
    a pen in a steady state, one more cell of the longer side behind it than
    its predecessor. *)
Lemma draw_loop_trace : forall fuel p cells,
  steady l p ->
  draw_loop fuel l p = Some cells ->
  forall n c, nth_error cells n = Some c ->
  exists q, steady l q /\ c = mkCell (pen_x q) (pen_y q) /\
            major l q = major l p - Z.of_nat n.
Proof.
  induction fuel as [|fuel IH]; intros p cells Hs H n c Hn; [discriminate|].
  rewrite RasterFacts.draw_loop_unfold in H.
  destruct (Z.eqb_spec (pen_x p) (end_x l)) as [Hx|Hx];
    [destruct (Z.eqb_spec (pen_y p) (end_y l)) as [Hy|Hy]|]; simpl in H.
  - injection H as <-.
    destruct n as [|n]; [|destruct n; discriminate].
    injection Hn as <-. exists p.
    split; [exact Hs|]. split; [reflexivity | simpl; lia].
  - destruct (draw_loop fuel l (advance l p)) as [rest|] eqn:E; [|discriminate].
    injection H as <-.
    destruct (steady_advance p Hs (or_intror Hy)) as [Hs' Hm].
    destruct n as [|n].
    + injection Hn as <-. exists p.
      split; [exact Hs|]. split; [reflexivity | simpl; lia].
    + destruct (IH _ _ Hs' E n c Hn) as (q & Hq & -> & Hmq).
      exists q. split; [exact Hq|]. split; [reflexivity | lia].
  - destruct (draw_loop fuel l (advance l p)) as [rest|] eqn:E; [|discriminate].
    injection H as <-.
    destruct (steady_advance p Hs (or_introl Hx)) as [Hs' Hm].
    destruct n as [|n].
    + injection Hn as <-. exists p.
      split; [exact Hs|]. split; [reflexivity | simpl; lia].
    + destruct (IH _ _ Hs' E n c Hn) as (q & Hq & -> & Hmq).
      exists q. split; [exact Hq|]. split; [reflexivity | lia].
Qed.

End Track.

(** *** From the pen to the cells *)

Lemma wide_cell (dx dy a b e : Z) :
  0 <= dy <= dx -> 0 < dx ->
  e = dx - dy + a * dy - b * dx ->
  0 <= a <= dx -> 0 <= b <= dy ->
  dx - 2 * dy <= 2 * e < 3 * dx - 2 * dy ->
  - dx <= 2 * (a * dy - b * dx) < dx /\ dy - b <= dx - a.
Proof. intros. split; nia. Qed.

Lemma tall_cell (dx dy a b e : Z) :
  0 <= dx < dy ->
  e = dx - dy + a * dy - b * dx ->
  0 <= a <= dx -> 0 <= b <= dy ->
  2 * dx - 3 * dy < 2 * e <= 2 * dx - dy ->
  - dy < 2 * (a * dy - b * dx) <= dy /\ dx - a <= dy - b.
Proof. intros. split; nia. Qed.

Section Segment.

Variables start finish : GridCell.

Let l : Line := line_of (column start) (row start) (column finish) (row finish).

Lemma steady_start :
  start <> finish ->
  steady l {| pen_x := column start; pen_y := row start; pen_err := dx l - dy l |}.
Proof.
  intros Hne.
  assert (Hd : column start <> column finish \/ row start <> row finish).
  { destruct start as [x0 y0], finish as [x1 y1]; simpl.
    destruct (Z.eq_dec x0 x1) as [->|]; [|auto].
    destruct (Z.eq_dec y0 y1) as [->|]; [|auto].
    exfalso. apply Hne. reflexivity. }
  set (p := {| pen_x := column start; pen_y := row start; pen_err := dx l - dy l |}).
  assert (Hgx : togo_x l p = dx l).
  { unfold togo_x; subst l; simpl.
    destruct (Z.ltb_spec (column start) (column finish)); lia. }
  assert (Hgy : togo_y l p = dy l).
  { unfold togo_y; subst l; simpl.
    destruct (Z.ltb_spec (row start) (row finish)); lia. }
  unfold steady, err_tracks. rewrite Hgx, Hgy.
  assert (He : pen_err p = dx l - dy l) by reflexivity. rewrite He.
  assert (Hdx : dx l = Z.abs (column finish - column start)) by reflexivity.
  assert (Hdy : dy l = Z.abs (row finish - row start)) by reflexivity.
  lia.
Qed.

Lemma major_start :
  major l {| pen_x := column start; pen_y := row start; pen_err := dx l - dy l |}
  = span start finish.
Proof.
  unfold major, span, togo_x, togo_y. subst l. simpl.
  destruct (Z.leb_spec (Z.abs (row finish - row start))
                       (Z.abs (column finish - column start)));
    destruct (Z.ltb_spec (column start) (column finish)),
             (Z.ltb_spec (row start) (row finish)); lia.
Qed.

(** What the invariant says of the cell under the pen. *)
Lemma steady_cell q :
  steady l q ->
  let c := mkCell (pen_x q) (pen_y q) in
  in_box start finish c /\
  2 * Z.abs (cross start finish c) <= span start finish /\
  chebyshev start c = span start finish - major l q.
Proof.
  intros (Ht & Ha & Hb & Hband). unfold err_tracks in Ht.
  unfold in_box, cross, chebyshev, span, major. cbn [column row].
  revert Ht Ha Hb Hband. unfold togo_x, togo_y. subst l.
  cbn [line_of dx dy sx sy end_x end_y].
  set (a := (if column start <? column finish then 1 else -1)
            * (column finish - pen_x q)).
  set (b := (if row start <? row finish then 1 else -1)
            * (row finish - pen_y q)).
  intros Ht Ha Hb Hband.
  assert (Hx : pen_x q - column start
               = (if column start <? column finish then 1 else -1)
                 * (Z.abs (column finish - column start) - a)).
  { subst a. destruct (Z.ltb_spec (column start) (column finish)); lia. }
  assert (Hy : pen_y q - row start
               = (if row start <? row finish then 1 else -1)
                 * (Z.abs (row finish - row start) - b)).
  { subst b. destruct (Z.ltb_spec (row start) (row finish)); lia. }
  assert (Hcross :
            Z.abs ((pen_x q - column start) * (row finish - row start)
                   - (pen_y q - row start) * (column finish - column start))
            = Z.abs (a * Z.abs (row finish - row start)
                     - b * Z.abs (column finish - column start))).
  { rewrite Hx, Hy.
    destruct (Z.ltb_spec (column start) (column finish)),
             (Z.ltb_spec (row start) (row finish)); nia. }
  rewrite Hcross.
  destruct Hband as [(Hw & Hpos & _ & Hbd) | (Htall & Hbd)].
  - assert (Hd : 0 <= Z.abs (row finish - row start)
                 <= Z.abs (column finish - column start)) by lia.
    destruct (wide_cell _ _ _ _ _ Hd Hpos Ht Ha Hb Hbd) as [Hdev Hmin].
    destruct (Z.leb_spec (Z.abs (row finish - row start))
                         (Z.abs (column finish - column start))); [|lia].
    split; [|split].
    + destruct (Z.ltb_spec (column start) (column finish)),
               (Z.ltb_spec (row start) (row finish)); lia.
    + lia.
    + rewrite Hx, Hy.
      destruct (Z.ltb_spec (column start) (column finish)),
               (Z.ltb_spec (row start) (row finish)); lia.
  - assert (Hd : 0 <= Z.abs (column finish - column start)
                 < Z.abs (row finish - row start)) by lia.
    destruct (tall_cell _ _ _ _ _ Hd Ht Ha Hb Hbd) as [Hdev Hmin].
    destruct (Z.leb_spec (Z.abs (row finish - row start))
                         (Z.abs (column finish - column start))); [lia|].
    split; [|split].
    + destruct (Z.ltb_spec (column start) (column finish)),
               (Z.ltb_spec (row start) (row finish)); lia.
    + lia.
    + rewrite Hx, Hy.
      destruct (Z.ltb_spec (column start) (column finish)),
               (Z.ltb_spec (row start) (row finish)); lia.
Qed.

(** The cells [draw_line] returns, by their position in the list. *)
Lemma draw_line_trace :
  exists cells,
    emits start finish cells /\
    forall n c, nth_error cells n = Some c ->
      in_box start finish c /\
      2 * Z.abs (cross start finish c) <= span start finish /\
      chebyshev start c = Z.of_nat n.
Proof.
  destruct (RasterFacts.draw_line_emits start finish) as (cells & Hemit & _).
  exists cells. split; [exact Hemit|].
  destruct (RasterFacts.emits_run _ _ _ Hemit) as [fuel Hrun].
  intros n c Hn.
  assert (Hdec : start = finish \/ start <> finish).
  { destruct start as [x0 y0], finish as [x1 y1].
    destruct (Z.eq_dec x0 x1) as [->|]; [|right; congruence].
    destruct (Z.eq_dec y0 y1) as [->|]; [left; reflexivity | right; congruence]. }
  destruct Hdec as [Heq|Hne].
  - destruct fuel as [|fuel]; [discriminate|].
    unfold draw_line in Hrun. rewrite <- Heq in Hrun.
    rewrite RasterFacts.draw_loop_at_end in Hrun by reflexivity.
    injection Hrun as <-. simpl in Hn.
    destruct n as [|n]; [|destruct n; discriminate].
    injection Hn as <-. rewrite <- Heq.
    unfold in_box, cross, chebyshev, span; cbn [column row pen_x pen_y]. lia.
  - destruct (draw_loop_trace l (RasterFacts.line_of_sx _ _ _ _)
                (RasterFacts.line_of_sy _ _ _ _) _ _ _
                (steady_start Hne) Hrun n c Hn) as (q & Hq & -> & Hm).
    destruct (steady_cell q Hq) as (Hbox & Hdev & Hch).
    rewrite major_start in Hm.
    split; [exact Hbox|]. split; [exact Hdev|]. lia.
Qed.

End Segment.

(** *** Properties of the cells [draw_line] writes *)

(** X1: every cell [draw_line] writes lies in the rectangle spanned by the
    start and the end cell. *)
Theorem draw_line_stays_in_box (start finish : GridCell) :
  exists cells, emits start finish cells /\ Forall (in_box start finish) cells.
Proof.
  destruct (draw_line_trace start finish) as (cells & Hemit & Htrace).
  exists cells. split; [exact Hemit|].
  apply Forall_forall. intros c Hin.
  destruct (In_nth_error _ _ Hin) as [n Hn].
  apply (Htrace n c Hn).
Qed.

(** X2: every cell [draw_line] writes is within half a cell of the straight
    line from start to end, measured along the shorter side: twice the cross
    product of the cell's offset with the segment is at most the longer
    side. *)
Theorem draw_line_hugs_the_line (start finish : GridCell) :
  exists cells,
    emits start finish cells /\
    Forall (fun c => 2 * Z.abs (cross start finish c) <= span start finish) cells.
Proof.
  destruct (draw_line_trace start finish) as (cells & Hemit & Htrace).
  exists cells. split; [exact Hemit|].
  apply Forall_forall. intros c Hin.
  destruct (In_nth_error _ _ Hin) as [n Hn].
  apply (Htrace n c Hn).
Qed.

(** X3: the n-th cell [draw_line] writes (counting from 0) is exactly n
    king's moves away from the start cell: every iteration advances one cell
    along the longer side of the segment. *)
Theorem draw_line_nth_cell (start finish : GridCell) :
  exists cells,
    emits start finish cells /\
    forall n c, nth_error cells n = Some c -> chebyshev start c = Z.of_nat n.
Proof.
  destruct (draw_line_trace start finish) as (cells & Hemit & Htrace).
  exists cells. split; [exact Hemit|].
  intros n c Hn. apply (Htrace n c Hn).
Qed.

(** X4: one call of [draw_line] writes no cell twice. *)
Theorem draw_line_no_repeat (start finish : GridCell) :
  exists cells, emits start finish cells /\ NoDup cells.
Proof.
  destruct (draw_line_trace start finish) as (cells & Hemit & Htrace).
  exists cells. split; [exact Hemit|].
  apply NoDup_nth_error. intros i j Hi Hij.
  destruct (nth_error cells i) as [c|] eqn:Ei.
  - pose proof (proj2 (proj2 (Htrace i c Ei))) as Hci.
    pose proof (proj2 (proj2 (Htrace j c (eq_sym Hij)))) as Hcj.
    lia.
  - apply nth_error_None in Ei. lia.
Qed.

(** The walk from (0,0) to (5,2) and its cross products. *)
Example draw_line_shallow_cross :
  option_map (map (cross (mkCell 0 0) (mkCell 5 2))) (draw_line 6 0 0 5 2)
  = Some [0; 2; -1; 1; -2; 0].
Proof. reflexivity. Qed.

End RasterShapeFacts.

(** ** More on the projector *)

Module ProjectorMore.

Import Projector.

(** *** Rounding toward zero *)

Lemma Qfloor_unique (q : Q) (z : Z) :
  (inject_Z z <= q)%Q -> (q < inject_Z (z + 1))%Q -> Qfloor q = z.
Proof.
  intros Hlo Hhi.
  assert (H1 : z < Qfloor q + 1).
  { rewrite Zlt_Qlt. eapply Qle_lt_trans; [exact Hlo | apply Qlt_floor]. }
  assert (H2 : Qfloor q < z + 1).
  { rewrite Zlt_Qlt. eapply Qle_lt_trans; [apply Qfloor_le | exact Hhi]. }
  lia.
Qed.

Lemma Qceiling_unique (q : Q) (z : Z) :
  (inject_Z (z - 1) < q)%Q -> (q <= inject_Z z)%Q -> Qceiling q = z.
Proof.
  intros Hlo Hhi.
  assert (H1 : z - 1 < Qceiling q).
  { rewrite Zlt_Qlt. eapply Qlt_le_trans; [exact Hlo | apply Qle_ceiling]. }
  assert (H2 : Qceiling q - 1 < z).
  { rewrite Zlt_Qlt. eapply Qlt_le_trans; [apply Qceiling_lt | exact Hhi]. }
  lia.
Qed.

(** Exactly the values strictly between -1 and 1 round to 0. *)
Lemma toward_zero_is_zero (q : Q) :
  toward_zero q = 0 <-> (-1 < q)%Q /\ (q < 1)%Q.
Proof.
  unfold toward_zero. destruct (Qle_bool 0 q) eqn:E.
  - apply Qle_bool_iff in E. split.
    + intros H. split.
      * eapply Qlt_le_trans; [|exact E]. reflexivity.
      * pose proof (Qlt_floor q) as Hf. rewrite H in Hf. exact Hf.
    + intros [_ Hhi]. apply Qfloor_unique; assumption.
  - assert (Hneg : (q < 0)%Q).
    { apply Qnot_le_lt. rewrite <- Qle_bool_iff, E. discriminate. }
    split.
    + intros H. split.
      * pose proof (Qceiling_lt q) as Hc. rewrite H in Hc. exact Hc.
      * eapply Qlt_trans; [exact Hneg|]. reflexivity.
    + intros [Hlo _]. apply Qceiling_unique; [exact Hlo|].
      apply Qlt_le_weak, Hneg.
Qed.

Lemma int_not_finite (f : float) :
  Py.finite f = false ->
  exists e, Py.int f = inl e /\
            (Py.exn_kind e = Py.ValueError \/ Py.exn_kind e = Py.OverflowError).
Proof.
  unfold Py.finite, Py.int.
  destruct (Prim2SF f); try discriminate; intros _; eexists; split;
    try reflexivity; simpl; auto.
Qed.

(** *** Properties of [convert_coords_to_excel_coords] *)

(** X5: where the two intermediate values of every coordinate are finite
    and not negative (the coordinate lies east of column 0 and south of
    row 0), the projector returns the floor of both values. *)
Theorem convert_coords_floor_when_not_negative
    (coords : list (float * float)) (center_lon center_lat scale : float) :
  (forall lon lat, In (lon, lat) coords ->
     Py.finite (column_value lon center_lon scale) = true /\
     Py.finite (row_value lat center_lat scale) = true /\
     (0 <= Py.Q_of_float (column_value lon center_lon scale))%Q /\
     (0 <= Py.Q_of_float (row_value lat center_lat scale))%Q) ->
  convert_coords_to_excel_coords coords center_lon center_lat scale
  = inr (map (fun c =>
           let cell := Spec.project (fst c) (snd c) center_lon center_lat scale in
           (column cell, row cell))
         coords).
Proof.
  induction coords as [|[lon lat] rest IH]; intros Hok; [reflexivity|].
  rewrite ProjectorFacts.convert_cons.
  destruct (Hok lon lat (or_introl eq_refl)) as (Hc & Hr & Pc & Pr).
  unfold excel_coord.
  change ((lon - center_lon) * scale + 50)%float with (column_value lon center_lon scale).
  change (50 - (lat - center_lat) * scale)%float with (row_value lat center_lat scale).
  rewrite (ProjectorFacts.int_toward_zero _ Hc), (ProjectorFacts.int_toward_zero _ Hr).
  simpl.
  rewrite IH by (intros lon' lat' Hin; apply Hok; right; exact Hin).
  simpl. do 3 f_equal.
  - apply ProjectorFacts.toward_zero_floor. left. exact Pc.
  - apply ProjectorFacts.toward_zero_floor. left. exact Pr.
Qed.

(** An instance of [convert_coords_floor_when_not_negative]: the two ends of
    the scenario segment. *)
Lemma convert_coords_floor_when_not_negative_witness :
  convert_coords_to_excel_coords
    [((-73.9857)%float, 40.7484%float); ((-73.9850)%float, 40.7490%float)]
    (-73.9857)%float 40.7484%float default_scale
  = inr [(50, 50); (50, 49)].
Proof.
  apply (convert_coords_floor_when_not_negative
           [((-73.9857)%float, 40.7484%float); ((-73.9850)%float, 40.7490%float)]
           (-73.9857)%float 40.7484%float default_scale).
  intros lon lat [H|[H|[]]]; injection H as <- <-;
    repeat split; vm_compute; try reflexivity; discriminate.
Defined.

(** X6: the projector returns, with one cell per coordinate, exactly when
    every intermediate value is finite; otherwise it raises, and what it
    raises is a [ValueError] (a NaN) or an [OverflowError] (an infinity). *)
Theorem convert_coords_raises_iff_not_finite
    (coords : list (float * float)) (center_lon center_lat scale : float) :
  let all_finite :=
    forallb (fun c => Py.finite (column_value (fst c) center_lon scale)
                      && Py.finite (row_value (snd c) center_lat scale)) coords in
  (all_finite = true ->
   exists cells,
     convert_coords_to_excel_coords coords center_lon center_lat scale = inr cells /\
     List.length cells = List.length coords) /\
  (all_finite = false ->
   exists e,
     convert_coords_to_excel_coords coords center_lon center_lat scale = inl e /\
     (Py.exn_kind e = Py.ValueError \/ Py.exn_kind e = Py.OverflowError)).
Proof.
  cbv zeta.
  induction coords as [|[lon lat] rest [IHok IHbad]].
  - split; [|discriminate]. intros _. exists []. split; reflexivity.
  - rewrite ProjectorFacts.convert_cons. unfold excel_coord.
    change ((lon - center_lon) * scale + 50)%float
      with (column_value lon center_lon scale).
    change (50 - (lat - center_lat) * scale)%float
      with (row_value lat center_lat scale).
    cbn [forallb fst snd].
    destruct (Py.finite (column_value lon center_lon scale)) eqn:Hc.
    + rewrite (ProjectorFacts.int_toward_zero _ Hc).
      destruct (Py.finite (row_value lat center_lat scale)) eqn:Hr.
      * rewrite (ProjectorFacts.int_toward_zero _ Hr). cbn [andb Py.bind].
        split; intros H.
        -- destruct (IHok H) as (cells & -> & Hlen).
           eexists. split; [reflexivity|]. simpl. rewrite Hlen. reflexivity.
        -- destruct (IHbad H) as (e & -> & Hk).
           exists e. split; [reflexivity | exact Hk].
      * cbn [andb Py.bind]. split; [discriminate|]. intros _.
        destruct (int_not_finite _ Hr) as (e & -> & Hk).
        exists e. split; [reflexivity | exact Hk].
    + cbn [andb]. split; [discriminate|]. intros _.
      destruct (int_not_finite _ Hc) as (e & -> & Hk).
      exists e. split; [reflexivity | exact Hk].
Qed.

(** X7: the projector puts a coordinate in column 0 exactly when its value
    [(lon - center_lon) * scale + 50] lies strictly between -1 and 1, and in
    row 0 exactly when [50 - (lat - center_lat) * scale] does: column 0 and
    row 0 each gather a band two cells wide. *)
Theorem excel_coord_zero_band (lon lat center_lon center_lat scale : float) :
  Py.finite (column_value lon center_lon scale) = true ->
  Py.finite (row_value lat center_lat scale) = true ->
  exists excel_x excel_y,
    excel_coord lon lat center_lon center_lat scale = inr (excel_x, excel_y) /\
    (excel_x = 0 <->
     (-1 < Py.Q_of_float (column_value lon center_lon scale))%Q /\
     (Py.Q_of_float (column_value lon center_lon scale) < 1)%Q) /\
    (excel_y = 0 <->
     (-1 < Py.Q_of_float (row_value lat center_lat scale))%Q /\
     (Py.Q_of_float (row_value lat center_lat scale) < 1)%Q).
Proof.
  intros Hc Hr. unfold excel_coord.
  change ((lon - center_lon) * scale + 50)%float with (column_value lon center_lon scale).
  change (50 - (lat - center_lat) * scale)%float with (row_value lat center_lat scale).
  rewrite (ProjectorFacts.int_toward_zero _ Hc), (ProjectorFacts.int_toward_zero _ Hr).
  do 2 eexists. split; [reflexivity|].
  split; apply toward_zero_is_zero.
Qed.

(** An instance of [excel_coord_zero_band]: a point 0.4 of a cell west of
    column 0 and 0.4 of a cell north of row 0 still lands in cell (0, 0). *)
Lemma excel_coord_zero_band_witness :
  exists excel_x excel_y,
    excel_coord (-50.4)%float 50.4%float 0%float 0%float 1%float
    = inr (excel_x, excel_y) /\
    (excel_x = 0 <->
     (-1 < Py.Q_of_float (column_value (-50.4)%float 0%float 1%float))%Q /\
     (Py.Q_of_float (column_value (-50.4)%float 0%float 1%float) < 1)%Q) /\
    (excel_y = 0 <->
     (-1 < Py.Q_of_float (row_value 50.4%float 0%float 1%float))%Q /\
     (Py.Q_of_float (row_value 50.4%float 0%float 1%float) < 1)%Q).
Proof.
  apply (excel_coord_zero_band (-50.4)%float 50.4%float 0%float 0%float 1%float);
    vm_compute; reflexivity.
Defined.

End ProjectorMore.

(** ** The rendering plan *)

Module PlanFacts.

Import Geo Excel Plan.

Lemma bind_call {B : Type} (c : ws_call) (k : unit -> Sheet B) ws :
  bind (call c) k ws = k tt (ws ++ [c]).
Proof. reflexivity. Qed.

Lemma bind_ok {A B : Type} (m : Sheet A) (k : A -> Sheet B) ws ws' a :
  m ws = Some (ws', inr a) -> bind m k ws = k a ws'.
Proof. intros H. unfold bind. rewrite H. reflexivity. Qed.

Lemma for_each_call {A : Type} (f : A -> ws_call) : forall items ws,
  for_each items (fun i => call (f i)) ws = Some (ws ++ map f items, inr tt).
Proof.
  induction items as [|i rest IH]; intros ws; simpl.
  - rewrite app_nil_r. reflexivity.
  - rewrite bind_call, IH, <- app_assoc. reflexivity.
Qed.

(** With fuel for its iterations, and with any more, a walk fills its
    cells. *)
Lemma draw_line_fills (a b : Z * Z) fuel ws :
  (Raster.iterations (fst a) (snd a) (fst b) (snd b) <= fuel)%nat ->
  draw_line fuel (fst a) (snd a) (fst b) (snd b) street_format ws
  = Some (ws ++ map fill (segment_cells a b), inr tt).
Proof.
  intros Hfuel. unfold draw_line, segment_cells.
  destruct (RasterFacts.draw_line_runs (fst a) (snd a) (fst b) (snd b))
    as (cells & Hrun & _).
  rewrite Hrun.
  replace fuel
    with (Raster.iterations (fst a) (snd a) (fst b) (snd b)
          + (fuel - Raster.iterations (fst a) (snd a) (fst b) (snd b)))%nat by lia.
  unfold Raster.draw_line in *.
  rewrite (RasterFacts.draw_loop_more_fuel _ _ _ _ _ Hrun). reflexivity.
Qed.

Lemma draw_segments_cons fuel (a b : Z * Z) rest f :
  draw_segments fuel (a :: b :: rest) f
  = bind (draw_line fuel (fst a) (snd a) (fst b) (snd b) f)
         (fun _ => draw_segments fuel (b :: rest) f).
Proof. destruct a, b. reflexivity. Qed.

Lemma polyline_cells_cons (a b : Z * Z) rest :
  polyline_cells (a :: b :: rest) = segment_cells a b ++ polyline_cells (b :: rest).
Proof. reflexivity. Qed.

Lemma draw_segments_fills : forall excel_coords,
  exists n, forall fuel ws, (n <= fuel)%nat ->
    draw_segments fuel excel_coords street_format ws
    = Some (ws ++ map fill (polyline_cells excel_coords), inr tt).
Proof.
  induction excel_coords as [|a rest IH].
  - exists O. intros fuel ws _. simpl. rewrite app_nil_r. reflexivity.
  - destruct rest as [|b rest].
    + exists O. intros fuel ws _. destruct a. simpl. rewrite app_nil_r. reflexivity.
    + destruct IH as [n IH].
      exists (Nat.max (Raster.iterations (fst a) (snd a) (fst b) (snd b)) n).
      intros fuel ws Hfuel.
      rewrite draw_segments_cons, polyline_cells_cons.
      rewrite (bind_ok _ _ _ _ _ (draw_line_fills a b fuel ws ltac:(lia))).
      rewrite IH by lia.
      rewrite map_app, app_assoc. reflexivity.
Qed.

Lemma render_row_fills center_lon center_lat r :
  projects center_lon center_lat r = true ->
  exists n, forall fuel ws, (n <= fuel)%nat ->
    render_row fuel center_lon center_lat r ws
    = Some (ws ++ map fill (row_cells center_lon center_lat r), inr tt).
Proof.
  unfold projects, render_row, row_cells.
  destruct (geometry r) as [c|coords|s|ps|ls|ss|];
    try (intros _; exists O; intros fuel ws _; cbn [map]; rewrite app_nil_r;
         reflexivity).
  destruct (Projector.convert_coords_to_excel_coords _ _ _ _) as [e|excel_coords];
    [discriminate|]. intros _.
  destruct (draw_segments_fills excel_coords) as [n Hn].
  exists n. intros fuel ws Hfuel.
  unfold bind, lift. apply Hn, Hfuel.
Qed.

Lemma rows_fill center_lon center_lat : forall streets,
  forallb (projects center_lon center_lat) streets = true ->
  exists n, forall fuel ws, (n <= fuel)%nat ->
    for_each streets (render_row fuel center_lon center_lat) ws
    = Some (ws ++ map fill (flat_map (row_cells center_lon center_lat) streets),
            inr tt).
Proof.
  induction streets as [|r rest IH]; intros Hok.
  - exists O. intros fuel ws _. simpl. rewrite app_nil_r. reflexivity.
  - simpl in Hok. apply andb_true_iff in Hok. destruct Hok as [Hr Hrest].
    destruct (render_row_fills _ _ _ Hr) as [n1 H1].
    destruct (IH Hrest) as [n2 H2].
    exists (Nat.max n1 n2). intros fuel ws Hfuel.
    cbn [for_each flat_map].
    rewrite (bind_ok _ _ _ _ _ (H1 fuel ws ltac:(lia))).
    cbv beta. rewrite H2 by lia.
    rewrite map_app, app_assoc. reflexivity.
Qed.

(** X8: for a data frame whose [LineString] rows all project (no NaN, no
    infinity), [export_streets_to_excel] terminates: with enough fuel for its
    walks it lays the sheet out, then fills, row after row and vertex pair
    after vertex pair, the cells of the walks between consecutive projected
    vertices, and then closes the workbook; rows of another geometry and
    lines of fewer than two vertices fill nothing.  It returns [True] when
    the close succeeds and wraps the failure of the close otherwise. *)
Theorem export_fills_the_plan
    (workbook_close : string -> Py.result unit)
    (streets_data : list Row) (center_point : Point) (output_path : string) :
  forallb (projects (point_x center_point) (point_y center_point)) streets_data
  = true ->
  exists n, forall k,
    export_streets_to_excel (n + k) workbook_close streets_data center_point
      output_path
    = Some (header
              ++ map fill
                   (flat_map (row_cells (point_x center_point) (point_y center_point))
                             streets_data)
              ++ [close_workbook output_path],
            match workbook_close output_path with
            | inr _ => inr true
            | inl e =>
                Py.raise Py.Exception ("Error exporting to Excel: " ++ Py.exn_msg e)
            end).
Proof.
  intros Hok.
  destruct (rows_fill _ _ _ Hok) as [n Hn].
  exists n. intros k.
  unfold export_streets_to_excel, try_except.
  rewrite bind_call.
  rewrite (bind_ok _ _ _ _ _ (for_each_call _ _ _)).
  rewrite bind_call.
  rewrite (bind_ok _ _ _ _ _ (Hn (n + k)%nat _ ltac:(lia))).
  rewrite bind_call.
  unfold header, bind, lift, ret.
  rewrite <- !app_assoc.
  destruct (workbook_close output_path); reflexivity.
Qed.

(** An instance of [export_fills_the_plan]: the two streets of the small
    world, of which only the single line is drawn. *)
Lemma export_fills_the_plan_witness :
  exists n, forall k,
    export_streets_to_excel (n + k) (fun _ => inr tt)
      [Fixtures.fifth_avenue; Fixtures.broadway] Fixtures.empire_state "map.xlsx"
    = Some (header
              ++ map fill
                   (flat_map (row_cells (point_x Fixtures.empire_state)
                                        (point_y Fixtures.empire_state))
                             [Fixtures.fifth_avenue; Fixtures.broadway])
              ++ [close_workbook "map.xlsx"],
            inr true).
Proof.
  apply (export_fills_the_plan (fun _ => inr tt)
           [Fixtures.fifth_avenue; Fixtures.broadway] Fixtures.empire_state "map.xlsx").
  vm_compute. reflexivity.
Defined.

Lemma for_each_app {A : Type} (body : A -> Sheet unit) : forall xs ys ws,
  for_each (xs ++ ys) body ws
  = bind (for_each xs body) (fun _ => for_each ys body) ws.
Proof.
  induction xs as [|x xs IH]; intros ys ws; [reflexivity|].
  simpl. unfold bind.
  destruct (body x ws) as [[ws1 [e|[]]]|]; try reflexivity.
  rewrite IH. reflexivity.
Qed.

Lemma bind_raise {A B : Type} (m : Sheet A) (k : A -> Sheet B) ws ws' e :
  m ws = Some (ws', inl e) -> bind m k ws = Some (ws', inl e).
Proof. intros H. unfold bind. rewrite H. reflexivity. Qed.

Lemma never_closed (cells : list GridCell) (path : string) :
  ~ In (close_workbook path) (header ++ map fill cells).
Proof.
  unfold header. intros H.
  apply in_app_or in H. destruct H as [H|H].
  - apply in_app_or in H. destruct H as [H|H].
    + destruct H as [H|[]]. discriminate.
    + apply in_app_or in H. destruct H as [H|H].
      * apply in_map_iff in H. destruct H as (i & H & _). discriminate.
      * destruct H as [H|[]]. discriminate.
  - apply in_map_iff in H. destruct H as (c & H & _). discriminate.
Qed.

(** X9: [export_streets_to_excel] stops at the first [LineString] row with
    a vertex that does not project (a NaN, an infinity, or a coordinate so
    large that the scaling overflows): the rows before it are filled,
    nothing of that row or of the rows after it is, [workbook.close()] is not
    called, and the projection's error is raised again behind
    "Error exporting to Excel: ". *)
Theorem export_stops_at_bad_row
    (workbook_close : string -> Py.result unit)
    (before after : list Row) (bad : Row) (coords : list (float * float))
    (e : Py.exn) (center_point : Point) (output_path : string) :
  forallb (projects (point_x center_point) (point_y center_point)) before = true ->
  geometry bad = LineString coords ->
  Projector.convert_coords_to_excel_coords
    coords (point_x center_point) (point_y center_point) Projector.default_scale
  = inl e ->
  exists n, forall k, exists ws,
    export_streets_to_excel (n + k) workbook_close (before ++ bad :: after)
      center_point output_path
    = Some (ws,
            Py.raise Py.Exception ("Error exporting to Excel: " ++ Py.exn_msg e)) /\
    ws = header
           ++ map fill
                (flat_map (row_cells (point_x center_point) (point_y center_point))
                          before) /\
    (forall path, ~ In (close_workbook path) ws).
Proof.
  intros Hok Hgeo Hbad.
  destruct (rows_fill _ _ _ Hok) as [n Hn].
  exists n. intros k. eexists. split; [|split; [reflexivity|]].
  - assert (Hrow : forall ws,
               render_row (n + k) (point_x center_point) (point_y center_point) bad ws
               = Some (ws, inl e)).
    { intros ws. unfold render_row. rewrite Hgeo, Hbad. reflexivity. }
    unfold export_streets_to_excel, try_except.
    rewrite bind_call.
    rewrite (bind_ok _ _ _ _ _ (for_each_call _ _ _)).
    rewrite bind_call.
    erewrite bind_raise.
    2:{ rewrite for_each_app.
        rewrite (bind_ok _ _ _ _ _ (Hn (n + k)%nat _ ltac:(lia))).
        cbn [for_each]. apply bind_raise. apply Hrow. }
    unfold header, lift. rewrite <- !app_assoc. reflexivity.
  - intros path. apply never_closed.
Qed.

(** An instance of [export_stops_at_bad_row]: that street between the two
    streets of the small world. *)
Lemma export_stops_at_bad_row_witness :
  exists n, forall k, exists ws,
    export_streets_to_excel (n + k) (fun _ => inr tt)
      ([Fixtures.fifth_avenue] ++ overflowing_street :: [Fixtures.broadway])
      Fixtures.empire_state "map.xlsx"
    = Some (ws,
            Py.raise Py.Exception
              ("Error exporting to Excel: "
                 ++ Py.exn_msg (Py.mkExn Py.OverflowError
                                  "cannot convert float infinity to integer"))) /\
    ws = header
           ++ map fill
                (flat_map (row_cells (point_x Fixtures.empire_state)
                                     (point_y Fixtures.empire_state))
                          [Fixtures.fifth_avenue]) /\
    (forall path, ~ In (close_workbook path) ws).
Proof.
  apply (export_stops_at_bad_row (fun _ => inr tt)
           [Fixtures.fifth_avenue] [Fixtures.broadway]
           overflowing_street
           [(1e307%float, 40.75%float); ((-73.98)%float, 40.75%float)]
           (Py.mkExn Py.OverflowError "cannot convert float infinity to integer")
           Fixtures.empire_state "map.xlsx");
    vm_compute; reflexivity.
Defined.

(** The plan of that frame: the walk from (50,50) to (50,49). *)
Example plan_of_the_small_world :
  flat_map (row_cells (point_x Fixtures.empire_state) (point_y Fixtures.empire_state))
           [Fixtures.fifth_avenue; Fixtures.broadway]
  = [mkCell 50 50; mkCell 50 49].
Proof. vm_compute. reflexivity. Qed.

End PlanFacts.

(** ** More on the pipeline *)

Module PipelineMore.

Import Geo Pipeline Effects.

(** *** The dataset check *)

(** X10: [check_shapefile_files] returns [True] exactly when each of the
    four companions ([.shp], [.shx], [.dbf], [.prj]) exists and can be
    read. *)
Theorem check_accepts_iff_complete (env : Env) (shapefile_path : string) (w : World) :
  snd (check_shapefile_files env shapefile_path w) = inr true
  <-> companions_ok env shapefile_path = true.
Proof.
  split.
  - intros H. destruct (companions_ok env shapefile_path) eqn:E; [reflexivity|].
    destruct (PipelineFacts.check_fails env shapefile_path w E) as (w' & e & Hc & _).
    rewrite Hc in H. discriminate.
  - intros E.
    destruct (PipelineFacts.check_accepts env shapefile_path w E) as (w' & Hc & _).
    rewrite Hc. reflexivity.
Qed.

Lemma check_file_raises env base_path ext w :
  file_ok env base_path ext = false ->
  snd (check_file env base_path ext w) = inl (file_error env (base_path ++ ext)).
Proof.
  unfold file_ok, file_error, check_file, bind, print, emit, raise, lift, ret.
  simpl. intros H.
  destruct (path_exists env (base_path ++ ext)); simpl in *.
  - rewrite H. reflexivity.
  - reflexivity.
Qed.

Lemma check_loop_first env base_path : forall exts w ext,
  find (fun ext => negb (file_ok env base_path ext)) exts = Some ext ->
  snd (for_each exts (check_file env base_path) w)
  = inl (file_error env (base_path ++ ext)).
Proof.
  induction exts as [|x rest IH]; intros w ext H; [discriminate|].
  simpl in H. simpl for_each. unfold bind.
  destruct (file_ok env base_path x) eqn:E; simpl in H.
  - destruct (PipelineFacts.check_file_ok env base_path x w E) as (w1 & -> & _).
    apply IH, H.
  - injection H as <-.
    pose proof (check_file_raises env base_path x w E) as Hr.
    destruct (check_file env base_path x w) as [w1 [e|[]]]; simpl in Hr.
    + simpl. exact Hr.
    + discriminate.
Qed.

(** X11: [check_shapefile_files] reports the first companion, in the order
    [.shp], [.shx], [.dbf], [.prj], that is missing or unreadable, and only
    that one: a [FileNotFoundError] when the file does not exist, a
    [PermissionError] when it exists and cannot be read. *)
Theorem check_reports_first_bad_file
    (env : Env) (shapefile_path : string) (w : World) (ext : string) :
  find (fun ext => negb (file_ok env (splitext_root env shapefile_path) ext))
       required_extensions = Some ext ->
  snd (check_shapefile_files env shapefile_path w)
  = inl (file_error env (splitext_root env shapefile_path ++ ext)).
Proof.
  intros H. unfold check_shapefile_files.
  rewrite PipelineFacts.bind_print. unfold bind.
  pose proof (check_loop_first env (splitext_root env shapefile_path)
                required_extensions
                (fst (print (nl ++ "Checking the following files:") w)) ext H) as Hr.
  destruct (for_each required_extensions _ _) as [w1 [e|[]]]; simpl in Hr.
  - simpl. injection Hr as ->. reflexivity.
  - discriminate.
Qed.

(** An instance of [check_reports_first_bad_file]: the dataset without its
    [.prj] file. *)
Lemma check_reports_first_bad_file_witness :
  snd (check_shapefile_files Fixtures.without_prj
         (shapefile_path_of Fixtures.without_prj) (mkWorld [] []))
  = inl (Py.mkExn Py.FileNotFoundError
           ("Required file not found: " ++ Fixtures.prj_path)).
Proof.
  apply (check_reports_first_bad_file Fixtures.without_prj
           (shapefile_path_of Fixtures.without_prj) (mkWorld [] []) ".prj").
  vm_compute. reflexivity.
Defined.

(** *** [get_user_input] *)

Lemma radius_loop_skips env good rest radius :
  parse_float env good = Some radius ->
  (radius <=? 0)%float = false ->
  forall bad seen,
    forallb (rejected env) bad = true ->
    exists seen',
      radius_loop env (bad ++ good :: rest) seen = (mkWorld rest seen', inr radius).
Proof.
  intros Hp Hr. induction bad as [|line bad IH]; intros seen Hbad.
  - simpl. rewrite Hp, Hr. eexists. reflexivity.
  - simpl in Hbad. apply andb_true_iff in Hbad. destruct Hbad as [Hl Hbad].
    unfold rejected in Hl. simpl.
    destruct (parse_float env line) as [r|].
    + rewrite Hl. apply IH, Hbad.
    + apply IH, Hbad.
Qed.

Lemma radius_loop_runs_dry env : forall lines seen,
  forallb (rejected env) lines = true ->
  exists seen',
    radius_loop env lines seen
    = (mkWorld [] seen', Py.raise Py.EOFError "EOF when reading a line").
Proof.
  induction lines as [|line rest IH]; intros seen H.
  - simpl. eexists. reflexivity.
  - simpl in H. apply andb_true_iff in H. destruct H as [Hl H].
    unfold rejected in Hl. simpl.
    destruct (parse_float env line) as [r|].
    + rewrite Hl. apply IH, H.
    + apply IH, H.
Qed.

(** X12: [get_user_input] takes the first line typed as the address, skips
    every following line that is not a number or is a number [<= 0], and
    returns with the first line that is a number not [<= 0]; the lines after
    it are left unread. *)
Theorem get_user_input_takes_first_valid_radius
    (env : Env) (address : string) (bad : list string) (good : string)
    (rest : list string) (radius : float) (seen : list event) :
  forallb (rejected env) bad = true ->
  parse_float env good = Some radius ->
  (radius <=? 0)%float = false ->
  exists seen',
    get_user_input env (mkWorld (address :: bad ++ good :: rest) seen)
    = (mkWorld rest seen', inr (address, radius)).
Proof.
  intros Hbad Hp Hr.
  unfold get_user_input, bind, print, emit, input, ret. simpl.
  match goal with
  | |- context [radius_loop env _ ?s] =>
      destruct (radius_loop_skips env good rest radius Hp Hr bad s Hbad)
        as [seen' ->]
  end.
  eexists. reflexivity.
Qed.

(** An instance of [get_user_input_takes_first_valid_radius]: three lines
    are turned away before 250 is taken. *)
Lemma get_user_input_takes_first_valid_radius_witness :
  exists seen',
    get_user_input Fixtures.complete
      (mkWorld ("350 5th Ave" :: ["abc"; "0"; "-5"] ++ "250" :: ["left"])%string [])
    = (mkWorld ["left"%string] seen', inr ("350 5th Ave"%string, 250%float)).
Proof.
  apply (get_user_input_takes_first_valid_radius Fixtures.complete
           "350 5th Ave" ["abc"; "0"; "-5"]%string "250" ["left"%string]
           250%float []);
    vm_compute; reflexivity.
Defined.

(** X13: when the input ends before a valid radius is typed (no line at
    all, only the address, or only rejected lines after it),
    [get_user_input] raises [EOFError]. *)
Theorem get_user_input_runs_dry (env : Env) (lines : list string) (seen : list event) :
  forallb (rejected env) (tl lines) = true ->
  exists seen',
    get_user_input env (mkWorld lines seen)
    = (mkWorld [] seen', Py.raise Py.EOFError "EOF when reading a line").
Proof.
  intros H.
  unfold get_user_input, bind, print, emit, input, ret.
  destruct lines as [|address lines]; simpl.
  - eexists. reflexivity.
  - simpl in H.
    match goal with
    | |- context [radius_loop env _ ?s] =>
        destruct (radius_loop_runs_dry env lines s H) as [seen' ->]
    end.
    eexists. reflexivity.
Qed.

(** An instance of [get_user_input_runs_dry]. *)
Lemma get_user_input_runs_dry_witness :
  exists seen',
    get_user_input Fixtures.complete
      (mkWorld ["350 5th Ave"; "abc"; "0"]%string [])
    = (mkWorld [] seen', Py.raise Py.EOFError "EOF when reading a line").
Proof.
  apply (get_user_input_runs_dry Fixtures.complete
           ["350 5th Ave"; "abc"; "0"]%string []).
  vm_compute. reflexivity.
Defined.

(** *** The effects of a run, stage by stage *)

Section Kept.

Variable P : event -> bool.
Hypothesis P_Print : forall text, P (Print text) = false.
Hypothesis P_Prompt : forall text, P (Prompt text) = false.

Lemma kept_emit e w : kept P (fst (emit e w)) = kept P w ++ filter P [e].
Proof. unfold kept, emit; simpl. apply filter_app. Qed.

Lemma kept_print text w : kept P (fst (print text w)) = kept P w.
Proof.
  unfold print. rewrite kept_emit. simpl. rewrite P_Print. apply app_nil_r.
Qed.

Lemma kept_radius_loop env : forall lines seen,
  filter P (log (fst (radius_loop env lines seen))) = filter P seen.
Proof.
  induction lines as [|line rest IH]; intros seen; simpl.
  - rewrite filter_app. simpl. rewrite P_Prompt. apply app_nil_r.
  - destruct (parse_float env line) as [r|].
    + destruct (r <=? 0)%float.
      * rewrite IH, !filter_app. simpl. rewrite P_Prompt, P_Print, !app_nil_r.
        reflexivity.
      * simpl. rewrite filter_app. simpl. rewrite P_Prompt. apply app_nil_r.
    + rewrite IH, !filter_app. simpl. rewrite P_Prompt, P_Print, !app_nil_r.
      reflexivity.
Qed.

Lemma kept_get_user_input env w : kept P (fst (get_user_input env w)) = kept P w.
Proof.
  unfold get_user_input, bind, print, emit, input, ret.
  destruct w as [[|line rest] seen]; simpl.
  - unfold kept; simpl. rewrite !filter_app. simpl.
    rewrite P_Prompt, P_Print, !app_nil_r. reflexivity.
  - match goal with
    | |- context [radius_loop env rest ?s] =>
        pose proof (kept_radius_loop env rest s) as H;
        destruct (radius_loop env rest s) as [w1 [e|r]]
    end; simpl in *; unfold kept; simpl; rewrite H, !filter_app; simpl;
      rewrite P_Prompt, P_Print, !app_nil_r; reflexivity.
Qed.

Lemma kept_geocode_address env address w :
  kept P (fst (geocode_address env address w))
  = kept P w ++ filter P [Geocode address].
Proof.
  unfold geocode_address, try_except, bind, emit, lift, raise, ret. simpl.
  destruct (geocode env address) as [e|[l|]]; simpl;
    unfold kept; simpl; apply filter_app.
Qed.

Lemma kept_check_file env base_path ext w :
  kept P (fst (check_file env base_path ext w)) = kept P w.
Proof.
  unfold check_file, bind, print, emit, raise, lift, ret. simpl.
  destruct (path_exists env (base_path ++ ext)),
           (access_R_OK env (base_path ++ ext)); simpl;
    unfold kept; simpl; rewrite filter_app; simpl;
    rewrite P_Print; apply app_nil_r.
Qed.

Lemma kept_check_loop env base_path : forall exts w,
  kept P (fst (for_each exts (check_file env base_path) w)) = kept P w.
Proof.
  induction exts as [|ext rest IH]; intros w; [reflexivity|].
  simpl for_each. unfold bind.
  pose proof (kept_check_file env base_path ext w) as H.
  destruct (check_file env base_path ext w) as [w1 [e|[]]]; simpl in *.
  - exact H.
  - rewrite IH. exact H.
Qed.

Lemma kept_check_shapefile_files env path w :
  kept P (fst (check_shapefile_files env path w)) = kept P w.
Proof.
  unfold check_shapefile_files. rewrite PipelineFacts.bind_print. unfold bind.
  pose proof (kept_check_loop env (splitext_root env path) required_extensions
                (fst (print (nl ++ "Checking the following files:") w))) as H.
  rewrite kept_print in H.
  destruct (for_each required_extensions _ _) as [w1 [e|[]]]; exact H.
Qed.

Lemma kept_extract_streets env center_point radius path w :
  kept P (fst (extract_streets env center_point radius path w))
  = kept P w ++ filter P [ReadFile path].
Proof.
  unfold extract_streets, try_except, bind, print, emit, lift, raise, ret. simpl.
  destruct (read_file env path) as [e|streets]; simpl;
    unfold kept; simpl; rewrite !filter_app; simpl;
    rewrite P_Print, app_nil_r; reflexivity.
Qed.

Lemma kept_visualize_streets env streets center_point radius path w :
  kept P (fst (visualize_streets env streets center_point radius path w))
  = kept P w ++ filter P [SaveMap path].
Proof.
  unfold visualize_streets, try_except, bind, emit, lift, raise, ret. simpl.
  destruct (folium_render env _ center_point radius path) as [e|[]]; simpl;
    unfold kept; simpl; apply filter_app.
Qed.

Lemma kept_export_streets_to_svg env streets path w :
  kept P (fst (export_streets_to_svg env streets path w))
  = kept P w ++ filter P [SaveSvg path].
Proof.
  unfold export_streets_to_svg, try_except, bind, emit, lift, raise, ret. simpl.
  destruct (pyplot_render env _ path) as [e|[]]; simpl;
    unfold kept; simpl; apply filter_app.
Qed.

(** The next stage of the run is a [print]: step over it. *)
Ltac next_print :=
  match goal with
  | |- context [try_except (bind (print ?t) ?k) ?h ?w0] =>
      rewrite (PipelineFacts.try_bind_ok (print t) k h w0
                 (fst (print t w0)) tt eq_refl)
  end.

(** Close a goal on the kept events of the world reached, from what is
    known of the world before the last prints. *)
Ltac close_with K :=
  rewrite ?kept_print, K; rewrite <- ?app_assoc, <- ?filter_app; reflexivity.

Lemma try_print text (h : Py.exn -> IO unit) w :
  try_except (print text) h w = print text w.
Proof. reflexivity. Qed.

Lemma extract_streets_rows env center_point radius path w w' frame :
  extract_streets env center_point radius path w = (w', inr frame) ->
  exists streets,
    read_file env path = inr streets /\
    rows frame
    = filter (fun r => intersects env (geometry r)
                         (mkBuffer center_point (radius / 111000)%float))
             (rows streets).
Proof.
  unfold extract_streets, try_except, bind, print, emit, lift, raise, ret. simpl.
  destruct (read_file env path) as [e|streets]; simpl; [discriminate|].
  intros H. injection H as _ <-. exists streets.
  split; [reflexivity|]. destruct (crs streets); reflexivity.
Qed.

(** The address [get_user_input] returns is the first line typed. *)
Lemma get_user_input_address env w w1 address radius :
  get_user_input env w = (w1, inr (address, radius)) ->
  address = hd EmptyString (stdin w).
Proof.
  unfold get_user_input, bind, print, emit, input, ret.
  destruct w as [[|line rest] seen]; simpl; [discriminate|].
  match goal with
  | |- context [radius_loop env rest ?s] =>
      destruct (radius_loop env rest s) as [w2 [e|r]]; [discriminate|]
  end.
  intros H. injection H as _ <- _. reflexivity.
Qed.

(** [geocode_address] returns the point of the location the geocoder
    found. *)
Lemma geocode_address_found env address w w' center_point :
  geocode_address env address w = (w', inr center_point) ->
  exists l, geocode env address = inr (Some l) /\
            center_point = mkPoint (longitude l) (latitude l).
Proof.
  unfold geocode_address, try_except, bind, emit, lift, raise, ret. simpl.
  destruct (geocode env address) as [e|[l|]]; simpl; try discriminate.
  intros H. injection H as _ <-. exists l. split; reflexivity.
Qed.

(** The events of [main] that satisfy [P] are the first [n] effects of a
    complete run on the address typed first, and the run goes beyond the
    read of the dataset only when streets were found. *)
Lemma main_effects env w :
  exists n,
    kept P (fst (main env w))
    = kept P w
        ++ filter P (firstn n (effects_of env (hd EmptyString (stdin w)))) /\
    ((2 < n)%nat -> found_streets env w).
Proof.
  unfold main.
  destruct (get_user_input env w) as [w1 [e|[address radius]]] eqn:E1;
    pose proof (kept_get_user_input env w) as K1; rewrite E1 in K1;
    cbn [fst] in K1.
  { rewrite (PipelineFacts.try_bind_raise _ _ _ _ _ _ E1).
    exists O. split; [|lia].
    rewrite kept_print, K1. symmetry. apply app_nil_r. }
  pose proof (get_user_input_address _ _ _ _ _ E1) as Ha. subst address.
  set (address := hd EmptyString (stdin w)) in *.
  rewrite (PipelineFacts.try_bind_ok _ _ _ _ _ _ E1). cbv beta iota.
  rewrite (PipelineFacts.try_bind_ok _ _ _ _ _ _
             (eq_refl : print _ w1 = (fst (print _ w1), inr tt))).
  match goal with
  | |- context [try_except (bind (geocode_address env address) _) _ ?w0] =>
      pose proof (kept_geocode_address env address w0) as K2;
      rewrite kept_print, K1 in K2;
      destruct (geocode_address env address w0) as [w2 [e|center]] eqn:E2;
      cbn [fst] in K2
  end.
  { rewrite (PipelineFacts.try_bind_raise _ _ _ _ _ _ E2).
    exists 1%nat. split; [|lia]. close_with K2. }
  rewrite (PipelineFacts.try_bind_ok _ _ _ _ _ _ E2).
  rewrite (PipelineFacts.try_bind_ok _ _ _ _ _ _
             (eq_refl : get_shapefile_path env w2
                        = (fst (get_shapefile_path env w2),
                           inr (shapefile_path_of env)))).
  assert (K3 : kept P (fst (get_shapefile_path env w2)) = kept P w2).
  { unfold get_shapefile_path, bind, print, emit, ret, kept. simpl.
    rewrite !filter_app. simpl. rewrite !P_Print, !app_nil_r. reflexivity. }
  next_print.
  match goal with
  | |- context [try_except (bind (check_shapefile_files env ?p) _) _ ?w0] =>
      pose proof (kept_check_shapefile_files env p w0) as K4;
      rewrite kept_print, K3, K2 in K4;
      destruct (check_shapefile_files env p w0) as [w4 [e|ok]] eqn:E4;
      cbn [fst] in K4
  end.
  { rewrite (PipelineFacts.try_bind_raise _ _ _ _ _ _ E4).
    exists 1%nat. split; [|lia]. close_with K4. }
  rewrite (PipelineFacts.try_bind_ok _ _ _ _ _ _ E4).
  next_print.
  match goal with
  | |- context [try_except (bind (extract_streets env center radius ?p) _) _ ?w0] =>
      pose proof (kept_extract_streets env center radius p w0) as K5;
      rewrite kept_print, K4 in K5;
      destruct (extract_streets env center radius p w0) as [w5 [e|streets]] eqn:E5;
      cbn [fst] in K5
  end.
  { rewrite (PipelineFacts.try_bind_raise _ _ _ _ _ _ E5).
    exists 2%nat. split; [|lia]. close_with K5. }
  rewrite (PipelineFacts.try_bind_ok _ _ _ _ _ _ E5).
  destruct (Nat.eqb_spec (List.length (rows streets)) 0) as [Hzero|Hsome].
  { rewrite try_print. exists 2%nat. split; [|lia]. close_with K5. }
  assert (Hfound : found_streets env w).
  { destruct (geocode_address_found _ _ _ _ _ E2) as (l & Hl & ->).
    destruct (extract_streets_rows _ _ _ _ _ _ _ E5) as (all & Hread & Hrows).
    exists w1, radius, l, all. fold address.
    split; [exact E1|]. split; [exact Hl|]. split; [exact Hread|].
    rewrite <- Hrows. intros Hnil. apply Hsome. rewrite Hnil. reflexivity. }
  cbv zeta.
  next_print.
  match goal with
  | |- context [try_except (bind (visualize_streets env streets center radius ?p) _) _ ?w0] =>
      pose proof (kept_visualize_streets env streets center radius p w0) as K6;
      rewrite kept_print, K5 in K6;
      destruct (visualize_streets env streets center radius p w0)
        as [w6 [e|ok6]] eqn:E6;
      cbn [fst] in K6
  end.
  { rewrite (PipelineFacts.try_bind_raise _ _ _ _ _ _ E6).
    exists 3%nat. split; [|intros _; exact Hfound]. close_with K6. }
  rewrite (PipelineFacts.try_bind_ok _ _ _ _ _ _ E6).
  next_print.
  match goal with
  | |- context [try_except (bind (export_streets_to_svg env streets ?p) _) _ ?w0] =>
      pose proof (kept_export_streets_to_svg env streets p w0) as K7;
      rewrite kept_print, K6 in K7;
      destruct (export_streets_to_svg env streets p w0) as [w7 [e|ok7]] eqn:E7;
      cbn [fst] in K7
  end.
  { rewrite (PipelineFacts.try_bind_raise _ _ _ _ _ _ E7).
    exists 4%nat. split; [|intros _; exact Hfound]. close_with K7. }
  rewrite (PipelineFacts.try_bind_ok _ _ _ _ _ _ E7).
  repeat next_print.
  rewrite try_print.
  exists 4%nat. split; [|intros _; exact Hfound]. close_with K7.
Qed.

End Kept.

(** *** Properties of [main] *)

Lemma geocode_address_fails env address w :
  (forall l, geocode env address <> inr (Some l)) ->
  geocode_address env address w
  = (mkWorld (stdin w) (log w ++ [Geocode address]),
     Py.raise Py.Exception
       ("Geocoding error: "
          ++ match geocode env address with
             | inl e => Py.exn_msg e
             | inr _ => "Address not found."
             end)).
Proof.
  intros Hno.
  unfold geocode_address, try_except, bind, emit, lift, raise, ret.
  destruct (geocode env address) as [e|[l|]]; cbn [stdin log fst snd].
  - reflexivity.
  - exfalso. apply (Hno l). reflexivity.
  - reflexivity.
Qed.

(** X14: the effects of a run of [main] (everything but what it prints and
    prompts) are an initial part of: geocode the address typed on the first
    input line, read the dataset at the path [get_shapefile_path] joins,
    save the map, save the SVG.  So [main] reads the dataset at most once
    and only after geocoding, saves the map only after reading, and saves
    the SVG only after the map. *)
Theorem main_effects_in_order (env : Env) (w : World) :
  exists n,
    kept is_effect (fst (main env w))
    = kept is_effect w
        ++ firstn n (effects_of env (hd EmptyString (stdin w))).
Proof.
  destruct (main_effects is_effect (fun _ => eq_refl) (fun _ => eq_refl) env w)
    as (n & H & _).
  exists n. rewrite H. f_equal.
  destruct n as [|[|[|[|[|n]]]]]; reflexivity.
Qed.

(** X15: when the run has its radius and the location of its address, and
    no row of the dataset it reads meets the buffer of that radius around
    that location, [main] renders nothing: it saves neither the map nor the
    SVG. *)
Theorem main_renders_nothing_without_streets
    (env : Env) (w w1 : World) (address : string) (radius : float)
    (l : Location) (streets : GeoDataFrame) :
  get_user_input env w = (w1, inr (address, radius)) ->
  geocode env address = inr (Some l) ->
  read_file env (shapefile_path_of env) = inr streets ->
  filter (fun r => intersects env (geometry r)
                     (mkBuffer (mkPoint (longitude l) (latitude l))
                               (radius / 111000)%float))
         (rows streets) = [] ->
  kept is_render (fst (main env w)) = kept is_render w.
Proof.
  intros Hinput Hgeo Hread Hnone.
  destruct (main_effects is_render (fun _ => eq_refl) (fun _ => eq_refl) env w)
    as (n & H & Hn).
  rewrite H.
  destruct n as [|[|[|n]]]; try apply app_nil_r.
  exfalso.
  destruct (Hn ltac:(lia)) as (w1' & radius' & l' & streets' & Hi & Hg & Hr & Hsome).
  pose proof (get_user_input_address _ _ _ _ _ Hinput) as Ha. subst address.
  rewrite Hinput in Hi. injection Hi as _ <-.
  rewrite Hgeo in Hg. injection Hg as <-.
  rewrite Hread in Hr. injection Hr as <-.
  apply Hsome, Hnone.
Qed.

(** An instance of [main_renders_nothing_without_streets]: an address some
    twenty kilometres from the streets of the dataset, and 250 meters. *)
Lemma main_renders_nothing_without_streets_witness :
  kept is_render
    (fst (main remote (mkWorld ["1 Far Rd"; "250"]%string [])))
  = [].
Proof.
  apply (main_renders_nothing_without_streets remote
           (mkWorld ["1 Far Rd"; "250"]%string [])
           (fst (get_user_input remote (mkWorld ["1 Far Rd"; "250"]%string [])))
           "1 Far Rd" 250%float
           (mkLocation (-74.15)%float 40.58%float)
           (mkFrame None [Fixtures.fifth_avenue; Fixtures.broadway]));
    vm_compute; reflexivity.
Defined.

(** That run reads the dataset and ends on the remark that no street was
    found. *)
Example main_remote :
  let w := fst (main remote (mkWorld ["1 Far Rd"; "250"]%string [])) in
  kept is_effect w
  = [Geocode "1 Far Rd"; ReadFile (shapefile_path_of remote)] /\
  last (log w) (Print "")
  = Print (nl ++ "No streets found within the specified radius.").
Proof. vm_compute. split; reflexivity. Qed.

(** The join does not double the separator of a directory that ends with
    one. *)
Example shapefile_path_at_the_root :
  path_join (path_join "/" "Centerline_20250522") "streets.shp"
  = "/Centerline_20250522/streets.shp"%string.
Proof. reflexivity. Qed.

(** X16: when the geocoder does not locate the address (it finds nothing,
    or it fails), a run that got its input does nothing after the geocoding
    but report the error: "Geocoding error: Address not found." or the
    geocoder's own message, behind "Error: ". *)
Theorem main_stops_at_unknown_address
    (env : Env) (w w1 : World) (address : string) (radius : float) :
  (forall l, geocode env address <> inr (Some l)) ->
  get_user_input env w = (w1, inr (address, radius)) ->
  main env w
  = (mkWorld (stdin w1)
       (log w1 ++ [Print (nl ++ "Geocoding address...");
                   Geocode address;
                   Print (nl ++ "Error: Geocoding error: "
                             ++ match geocode env address with
                                | inl e => Py.exn_msg e
                                | inr _ => "Address not found."
                                end)]),
     inr tt).
Proof.
  intros Hno Hinput. unfold main.
  rewrite (PipelineFacts.try_bind_ok _ _ _ _ _ _ Hinput). cbv beta iota.
  rewrite (PipelineFacts.try_bind_ok _ _ _ _ _ _
             (eq_refl : print _ w1 = (fst (print _ w1), inr tt))).
  rewrite (PipelineFacts.try_bind_raise _ _ _ _ _ _
             (geocode_address_fails env address _ Hno)).
  unfold print, emit. cbn [stdin log fst]. rewrite <- !app_assoc. reflexivity.
Qed.

(** An instance of [main_stops_at_unknown_address]. *)
Lemma main_stops_at_unknown_address_witness :
  main nowhere (mkWorld ["1 Nowhere St"; "250"]%string [])
  = (mkWorld []
       [Print (nl ++ "=== NYC Street Centerline Extractor ===");
        Prompt (nl ++ "Please enter a NYC address (e.g., '350 5th Ave, New York, NY'): ");
        Prompt (nl ++ "Please enter search radius (meters): ");
        Print (nl ++ "Geocoding address...");
        Geocode "1 Nowhere St";
        Print (nl ++ "Error: Geocoding error: Address not found.")],
     inr tt).
Proof.
  apply (main_stops_at_unknown_address nowhere
           (mkWorld ["1 Nowhere St"; "250"]%string [])
           (fst (get_user_input nowhere (mkWorld ["1 Nowhere St"; "250"]%string [])))
           "1 Nowhere St" 250%float).
  - intros l. discriminate.
  - vm_compute. reflexivity.
Defined.

End PipelineMore.
